(** * finance_tracker: a shallow embedding of [app.py]

    The application is a Streamlit script over a SQLite file.  Every page is a
    Python function that reads widgets, talks to the database through the
    [save_*]/[load_*] helpers and prints to the page.  The embedding keeps that
    shape:

    - a [World] holds the SQLite tables, Streamlit's session state, the page
      output produced so far, the date of the run and, for each connection
      the run is going to open, what goes wrong on it: nothing, an
      [sqlite3.Error] at [sqlite3.connect], or an error in the pandas call
      made on the connection, which pandas raises as
      [pandas.errors.DatabaseError];
    - a page is a computation in the monad [M] (state and Python exceptions);
    - amounts are Python floats in the source; they are rationals ([Q]) here,
      so sums and quotients are exact;
    - a pandas frame is either [Table rows], a frame that carries the columns
      of its SQL table, or [Blank], the column-less [pd.DataFrame()] that the
      loaders return after they caught an [sqlite3.Error]. *)

From Stdlib Require Import List String Ascii Bool Arith Lia ZArith QArith.
From Stdlib Require Import Qround Permutation DecimalString Sorted.
Import ListNotations.

Open Scope string_scope.
Open Scope list_scope.

(** ** Dates *)

Record date := mkDate { year : nat; month : nat; day : nat }.

Definition str_nat (n : nat) : string := NilEmpty.string_of_uint (Nat.to_uint n).

Fixpoint zeros (n : nat) : string :=
  match n with
  | O => EmptyString
  | S k => String "0" (zeros k)
  end.

(** [zfill w s]: left padding with zeros up to width [w]. *)
Definition zfill (w : nat) (s : string) : string :=
  String.append (zeros (w - String.length s)) s.

(** [date.isoformat()], the text SQLite keeps for a date: YYYY-MM-DD. *)
Definition isoformat (d : date) : string :=
  String.append (zfill 4 (str_nat (year d)))
    (String.append "-" (String.append (zfill 2 (str_nat (month d)))
      (String.append "-" (zfill 2 (str_nat (day d)))))).

(** [pd.to_datetime(d).to_period('M')] rendered with [astype(str)]: YYYY-MM. *)
Definition to_period_M (d : date) : string :=
  String.append (zfill 4 (str_nat (year d)))
    (String.append "-" (zfill 2 (str_nat (month d)))).

(** ** Records of the five tables *)

Module Transaction.
Record t := mk {
  Date : date;
  Category : string;
  Amount : Q;
  Description : string;
  Type_ : string;
  User : string
}.
End Transaction.

Module AutomatedPayment.
Record t := mk {
  Name : string;
  Amount : Q;
  Frequency : string;
  NextPaymentDate : date;
  User : string
}.
End AutomatedPayment.

Module Loan.
Record t := mk {
  Name : string;
  Amount : Q;
  Type_ : string;
  DueDate : date;
  User : string
}.
End Loan.

(** ** pandas frames *)

Inductive DataFrame (R : Type) : Type :=
| Blank
| Table (rows : list R).
Arguments Blank {R}.
Arguments Table {R} rows.

(** [df.empty] *)
Definition empty {R : Type} (df : DataFrame R) : bool :=
  match df with
  | Blank => true
  | Table [] => true
  | Table (_ :: _) => false
  end.

(** [series.sum()]: the sum of no value is 0. *)
Definition Qsum (l : list Q) : Q := fold_right Qplus 0%Q l.

(** ** Keys of groupings and dictionaries *)

(** A type of keys comes with an equality test and the order its groups
    are listed in. *)
Class Key (K : Type) := {
  keqb : K -> K -> bool;
  kleb : K -> K -> bool
}.

#[global] Instance Key_string : Key string := {
  keqb := String.eqb;
  kleb := String.leb
}.

Definition pair_eqb (a b : string * string) : bool :=
  String.eqb (fst a) (fst b) && String.eqb (snd a) (snd b).

Definition pair_leb (a b : string * string) : bool :=
  match String.compare (fst a) (fst b) with
  | Lt => true
  | Eq => String.leb (snd a) (snd b)
  | Gt => false
  end.

#[global] Instance Key_pair : Key (string * string) := {
  keqb := pair_eqb;
  kleb := pair_leb
}.

(** Sorting by insertion, for the sorted index of a grouping and for
    [sort_values]. *)
Fixpoint insert_by {A : Type} (leb : A -> A -> bool) (x : A) (l : list A) : list A :=
  match l with
  | [] => [x]
  | y :: l' => if leb x y then x :: l else y :: insert_by leb x l'
  end.

Definition sort_by {A : Type} (leb : A -> A -> bool) (l : list A) : list A :=
  fold_right (insert_by leb) [] l.

Section Grouping.
Context {K : Type} `{Key K}.

Definition mem (k : K) (l : list K) : bool := existsb (keqb k) l.

(** The distinct keys, each at its first occurrence. *)
Fixpoint unique (l : list K) : list K :=
  match l with
  | [] => []
  | k :: l' => k :: filter (fun k' => negb (keqb k' k)) (unique l')
  end.

Definition sort_keys (l : list K) : list K := sort_by kleb l.

(** [frame.groupby(key)[val].sum()]: one entry per distinct key, keys in
    ascending order, each with the sum of the values of its group. *)
Definition groupby_sum {R : Type} (key : R -> K) (val : R -> Q) (rows : list R)
  : list (K * Q) :=
  map (fun k => (k, Qsum (map val (filter (fun r => keqb (key r) k) rows))))
      (sort_keys (unique (map key rows))).

(** Association lists double as pandas Series and Python dicts. *)
Fixpoint lookup {V : Type} (k : K) (l : list (K * V)) : option V :=
  match l with
  | [] => None
  | (k', v) :: l' => if keqb k' k then Some v else lookup k l'
  end.

(** [d.get(k, default)] and [series.get(k, default)] *)
Definition get {V : Type} (k : K) (default : V) (l : list (K * V)) : V :=
  match lookup k l with
  | Some v => v
  | None => default
  end.

(** [d[k] = v]: an existing key keeps its place, a new key goes last. *)
Fixpoint dict_set {V : Type} (k : K) (v : V) (l : list (K * V)) : list (K * V) :=
  match l with
  | [] => [(k, v)]
  | (k', v') :: l' => if keqb k' k then (k', v) :: l' else (k', v') :: dict_set k v l'
  end.

(** [{row[0]: row[1] for row in rows}], on top of the entries of [d]. *)
Definition dict_of_rows {V : Type} (rows : list (K * V)) (d : list (K * V))
  : list (K * V) :=
  fold_left (fun d row => dict_set (fst row) (snd row) d) rows d.

(** [INSERT OR REPLACE] on a table whose first column is its primary key:
    the row that holds the key is deleted and the new row is inserted. *)
Definition insert_or_replace {V : Type} (k : K) (v : V) (l : list (K * V))
  : list (K * V) :=
  filter (fun r => negb (keqb (fst r) k)) l ++ [(k, v)].

End Grouping.

(** ** The SQLite file *)

(** A table that was never created is [None]. *)
Record Database := mkDatabase {
  transactions_tbl : option (list Transaction.t);
  budget_tbl : option (list (string * Q));
  savings_goal_tbl : option (list (string * Q));
  automated_payments_tbl : option (list AutomatedPayment.t);
  loans_tbl : option (list Loan.t)
}.

(** [CREATE TABLE IF NOT EXISTS] *)
Definition create_if_not_exists {R : Type} (tbl : option (list R)) : option (list R) :=
  match tbl with
  | Some rows => Some rows
  | None => Some []
  end.

(** What [df.to_sql(name, conn, if_exists='append', index=False)] writes:
    the table is created when it is missing, the rows of the frame go after
    the others. *)
Definition to_sql_append {R : Type} (df : list R) (tbl : option (list R))
  : option (list R) :=
  match tbl with
  | Some rows => Some (rows ++ df)
  | None => Some df
  end.

Definition rows_of {R : Type} (tbl : option (list R)) : list R :=
  match tbl with
  | Some rows => rows
  | None => []
  end.

(** ** Streamlit: session state and page output *)

Record SessionState := mkSession {
  user : option string;
  transactions : option (DataFrame Transaction.t);
  savings_goal : option Q
}.

(** An f-string: text with formatted numbers in it. *)
Inductive piece : Type :=
| Str (s : string)
| Money (q : Q)        (* f"${q:.2f}" *)
| Percent (q : Q).     (* f"{q:.1f}%" *)

Definition fstring := list piece.

Record MonthlyRow := mkMonthly {
  Month : string;
  Income : Q;
  Expense : Q;
  Net : Q
}.

Record ComparisonRow := mkComparison {
  cmp_Category : string;
  cmp_Budget : Q;
  cmp_Actual : Q;
  cmp_Difference : Q
}.

Inductive figure : Type :=
| px_bar (data : list MonthlyRow) (title : string)
| px_pie (data : list Transaction.t) (title : string)
| go_Figure (bars : list (string * list string * list Q)) (title barmode : string).

Inductive frame : Type :=
| frame_transactions (df : DataFrame Transaction.t)
| frame_payments (df : DataFrame AutomatedPayment.t)
| frame_loans (df : DataFrame Loan.t).

Inductive ui : Type :=
| out_title (s : string)
| out_header (s : string)
| out_subheader (s : string)
| out_error (msg : fstring)
| out_warning (msg : fstring)
| out_info (msg : fstring)
| out_success (msg : fstring)
| out_metric (label : string) (value : fstring)
| out_plotly_chart (fig : figure)
| out_dataframe (df : frame)
| out_progress (value : Q)
| out_write (msg : fstring)
| out_download_button (label data file_name mime : string).

(** ** The world of one run of the script *)

(** What goes wrong on a connection. *)
Inductive fault : Type :=
| at_connect (e : string)   (* [sqlite3.connect] raises [sqlite3.Error] *)
| in_pandas (e : string).   (* the connection is made; [df.to_sql] or
                               [pd.read_sql] on it raises
                               [pandas.errors.DatabaseError] *)

Record World := mkWorld {
  store : Database;
  session_state : SessionState;
  screen : list ui;
  today : date;
  (** what goes wrong on the next connections, one entry for each call of
      [sqlite3.connect]; [None], and every call past the end of the list,
      is a connection on which nothing goes wrong *)
  sqlite_faults : list (option fault)
}.

Definition set_store (db : Database) (w : World) : World :=
  mkWorld db (session_state w) (screen w) (today w) (sqlite_faults w).
Definition set_session (s : SessionState) (w : World) : World :=
  mkWorld (store w) s (screen w) (today w) (sqlite_faults w).
Definition set_screen (o : list ui) (w : World) : World :=
  mkWorld (store w) (session_state w) o (today w) (sqlite_faults w).
Definition set_faults (f : list (option fault)) (w : World) : World :=
  mkWorld (store w) (session_state w) (screen w) (today w) f.

(** ** Python exceptions and the monad of the script *)

Inductive exn : Type :=
| NameError (name : string)
| KeyError (key : string)
| AttributeError (name : string)
| sqlite3_Error (msg : string)
| pandas_DatabaseError (msg : string)
| RerunException.

Inductive res (A : Type) : Type :=
| Ok (a : A)
| Raise (e : exn).
Arguments Ok {A} a.
Arguments Raise {A} e.

Definition M (A : Type) : Type := World -> res A * World.

Definition ret {A : Type} (a : A) : M A := fun w => (Ok a, w).
Definition raise {A : Type} (e : exn) : M A := fun w => (Raise e, w).
Definition bind {A B : Type} (m : M A) (k : A -> M B) : M B :=
  fun w =>
    match m w with
    | (Ok a, w') => k a w'
    | (Raise e, w') => (Raise e, w')
    end.

Declare Scope monad_scope.
Delimit Scope monad_scope with monad.
Notation "x <- c1 ;; c2" := (bind c1 (fun x => c2))
  (at level 61, c1 at next level, right associativity) : monad_scope.
Notation "c1 ;; c2" := (bind c1 (fun _ => c2))
  (at level 61, right associativity) : monad_scope.
Open Scope monad_scope.

(** [try: body / except sqlite3.Error as e: handler]: no other exception is
    caught; [pandas.errors.DatabaseError] is no subclass of [sqlite3.Error]. *)
Definition try_except_sqlite3 {A : Type} (body : M A) (handler : string -> M A) : M A :=
  fun w =>
    match body w with
    | (Raise (sqlite3_Error e), w') => handler e w'
    | r => r
    end.

(** [for x in l: body x] *)
Fixpoint for_ {A : Type} (l : list A) (body : A -> M unit) : M unit :=
  match l with
  | [] => ret tt
  | x :: l' => body x ;; for_ l' body
  end.

Definition when (b : bool) (m : M unit) : M unit := if b then m else ret tt.

Definition get_store : M Database := fun w => (Ok (store w), w).
Definition modify_store (f : Database -> Database) : M unit :=
  fun w => (Ok tt, set_store (f (store w)) w).
Definition get_today : M date := fun w => (Ok (today w), w).

(** ** Names of the module

    A Python function finds a free name in the globals of its module: the
    aliases bound by the [import] lines 1-5 and the functions the file
    defines.  A name that is in neither raises [NameError]. *)

Definition imports : list (string * string) :=
  [ ("st", "streamlit");
    ("pd", "pandas");
    ("px", "plotly.express");
    ("sqlite3", "sqlite3");
    ("datetime", "datetime.datetime") ].

Definition functions : list string :=
  [ "main"; "show_dashboard"; "show_transactions"; "budget_management";
    "savings_goals"; "automated_payments"; "loans"; "data_export";
    "save_to_database"; "load_from_database";
    "save_budget_to_database"; "load_budget_from_database";
    "save_savings_goal_to_database"; "load_savings_goal_from_database";
    "save_automated_payment_to_database"; "load_automated_payments_from_database";
    "save_loan_to_database"; "load_loans_from_database" ].

Definition module_globals : list string := Eval cbv in map fst imports ++ functions.

Definition resolve (name : string) : M unit :=
  if mem name module_globals then ret tt else raise (NameError name).

(** ** Streamlit calls *)

Definition emit (e : ui) : M unit :=
  resolve "st" ;; fun w => (Ok tt, set_screen (screen w ++ [e]) w).

Definition st_title (s : string) : M unit := emit (out_title s).
Definition st_header (s : string) : M unit := emit (out_header s).
Definition st_subheader (s : string) : M unit := emit (out_subheader s).
Definition st_error (msg : fstring) : M unit := emit (out_error msg).
Definition st_warning (msg : fstring) : M unit := emit (out_warning msg).
Definition st_info (msg : fstring) : M unit := emit (out_info msg).
Definition st_success (msg : fstring) : M unit := emit (out_success msg).
Definition st_metric (label : string) (value : fstring) : M unit := emit (out_metric label value).
Definition st_plotly_chart (fig : figure) : M unit := emit (out_plotly_chart fig).
Definition st_dataframe (df : frame) : M unit := emit (out_dataframe df).
(** [st.progress(value)], with the number it is given; whether Python holds
    that number as an int or as a float is not kept. *)
Definition st_progress (value : Q) : M unit := emit (out_progress value).
Definition st_write (msg : fstring) : M unit := emit (out_write msg).
Definition st_download_button (label data file_name mime : string) : M unit :=
  emit (out_download_button label data file_name mime).

(** [st.rerun()] stops the run of the script; Streamlit starts it again. *)
Definition st_rerun : M unit := resolve "st" ;; raise RerunException.

(** [st.number_input(..., min_value=m, value=v)]: the number the user typed
    when it is at or above [m], and the initial value [v] before any typing
    and for a number below [m], which the widget does not take. *)
Definition st_number_input (min_value value : Q) (typed : option Q) : Q :=
  match typed with
  | Some x => if Qle_bool min_value x then x else value
  | None => value
  end.

(** [st.session_state.<field>]; a field that was never set raises. *)
Definition session_user : M string :=
  resolve "st" ;;
  fun w => match user (session_state w) with
           | Some u => (Ok u, w)
           | None => (Raise (AttributeError "user"), w)
           end.

Definition session_transactions : M (DataFrame Transaction.t) :=
  resolve "st" ;;
  fun w => match transactions (session_state w) with
           | Some df => (Ok df, w)
           | None => (Raise (AttributeError "transactions"), w)
           end.

Definition session_savings_goal : M Q :=
  resolve "st" ;;
  fun w => match savings_goal (session_state w) with
           | Some g => (Ok g, w)
           | None => (Raise (AttributeError "savings_goal"), w)
           end.

Definition set_session_user (u : string) : M unit :=
  resolve "st" ;;
  fun w => let s := session_state w in
           (Ok tt, set_session (mkSession (Some u) (transactions s) (savings_goal s)) w).

Definition set_session_transactions (df : DataFrame Transaction.t) : M unit :=
  resolve "st" ;;
  fun w => let s := session_state w in
           (Ok tt, set_session (mkSession (user s) (Some df) (savings_goal s)) w).

Definition set_session_savings_goal (g : Q) : M unit :=
  resolve "st" ;;
  fun w => let s := session_state w in
           (Ok tt, set_session (mkSession (user s) (transactions s) (Some g)) w).

(** ** SQLite calls *)

(** A connection, with the error pandas is going to meet on it, if any. *)
Inductive Connection : Type :=
| healthy
| failing (e : string).

(** [sqlite3.connect('finance_data.db')] *)
Definition sqlite3_connect : M Connection :=
  resolve "sqlite3" ;;
  fun w => match sqlite_faults w with
           | [] => (Ok healthy, w)
           | None :: fs => (Ok healthy, set_faults fs w)
           | Some (at_connect e) :: fs => (Raise (sqlite3_Error e), set_faults fs w)
           | Some (in_pandas e) :: fs => (Ok (failing e), set_faults fs w)
           end.

Definition set_transactions_tbl (t : option (list Transaction.t)) (db : Database) :=
  mkDatabase t (budget_tbl db) (savings_goal_tbl db) (automated_payments_tbl db) (loans_tbl db).
Definition set_budget_tbl (t : option (list (string * Q))) (db : Database) :=
  mkDatabase (transactions_tbl db) t (savings_goal_tbl db) (automated_payments_tbl db) (loans_tbl db).
Definition set_savings_goal_tbl (t : option (list (string * Q))) (db : Database) :=
  mkDatabase (transactions_tbl db) (budget_tbl db) t (automated_payments_tbl db) (loans_tbl db).
Definition set_automated_payments_tbl (t : option (list AutomatedPayment.t)) (db : Database) :=
  mkDatabase (transactions_tbl db) (budget_tbl db) (savings_goal_tbl db) t (loans_tbl db).
Definition set_loans_tbl (t : option (list Loan.t)) (db : Database) :=
  mkDatabase (transactions_tbl db) (budget_tbl db) (savings_goal_tbl db) (automated_payments_tbl db) t.

(** [pd.read_sql('SELECT * FROM t', conn)] on a table that exists.  pandas
    runs the statement itself and raises what goes wrong as
    [pandas.errors.DatabaseError]. *)
Definition pd_read_sql {R : Type} (tbl : Database -> option (list R)) (conn : Connection)
  : M (DataFrame R) :=
  resolve "pd" ;;
  match conn with
  | failing e => raise (pandas_DatabaseError e)
  | healthy => db <- get_store ;; ret (Table (rows_of (tbl db)))
  end.

(** [df.to_sql(name, conn, if_exists='append', index=False)]: [write] is
    what the call does to the table.  When pandas meets an error nothing is
    written and [pandas.errors.DatabaseError] is raised. *)
Definition to_sql (conn : Connection) (write : Database -> Database) : M unit :=
  match conn with
  | failing e => raise (pandas_DatabaseError e)
  | healthy => modify_store write
  end.

(** [pd.DataFrame()] *)
Definition pd_DataFrame {R : Type} : M (DataFrame R) := resolve "pd" ;; ret Blank.

(** ** Persistence helpers (lines 270-435) *)

Definition save_to_database (df : list Transaction.t) : M unit :=
  try_except_sqlite3
    (conn <- sqlite3_connect ;;
     to_sql conn (fun db => set_transactions_tbl (to_sql_append df (transactions_tbl db)) db))
    (fun e => st_error [Str "An error occurred while saving to the database: "; Str e]).

Definition load_from_database : M (DataFrame Transaction.t) :=
  try_except_sqlite3
    (conn <- sqlite3_connect ;;
     modify_store (fun db => set_transactions_tbl (create_if_not_exists (transactions_tbl db)) db) ;;
     df <- pd_read_sql transactions_tbl conn ;;
     ret df)
    (fun e =>
       st_error [Str "An error occurred while loading from the database: "; Str e] ;;
       pd_DataFrame).

Definition save_budget_to_database (budget_data : list (string * Q)) : M unit :=
  try_except_sqlite3
    (conn <- sqlite3_connect ;;
     modify_store (fun db => set_budget_tbl (create_if_not_exists (budget_tbl db)) db) ;;
     for_ budget_data (fun item =>
       modify_store (fun db =>
         set_budget_tbl
           (Some (insert_or_replace (fst item) (snd item) (rows_of (budget_tbl db)))) db)))
    (fun e => st_error [Str "An error occurred while saving the budget: "; Str e]).

(** [SELECT * FROM budget]: this helper creates no table, so the statement
    raises when nothing was ever saved. *)
Definition select_budget : M (list (string * Q)) :=
  db <- get_store ;;
  match budget_tbl db with
  | Some rows => ret rows
  | None => raise (sqlite3_Error "no such table: budget")
  end.

Definition load_budget_from_database : M (list (string * Q)) :=
  try_except_sqlite3
    (conn <- sqlite3_connect ;;
     rows <- select_budget ;;
     let budget_data := dict_of_rows rows [] in
     ret budget_data)
    (fun e =>
       st_error [Str "An error occurred while loading the budget: "; Str e] ;;
       ret []).

Definition save_savings_goal_to_database (goal : Q) : M unit :=
  try_except_sqlite3
    (conn <- sqlite3_connect ;;
     modify_store (fun db => set_savings_goal_tbl (create_if_not_exists (savings_goal_tbl db)) db) ;;
     u <- session_user ;;
     modify_store (fun db =>
       set_savings_goal_tbl (Some (insert_or_replace u goal (rows_of (savings_goal_tbl db)))) db))
    (fun e => st_error [Str "An error occurred while saving the savings goal: "; Str e]).

Definition load_savings_goal_from_database : M Q :=
  try_except_sqlite3
    (conn <- sqlite3_connect ;;
     modify_store (fun db => set_savings_goal_tbl (create_if_not_exists (savings_goal_tbl db)) db) ;;
     u <- session_user ;;
     db <- get_store ;;
     let result := lookup u (rows_of (savings_goal_tbl db)) in
     ret (match result with Some goal => goal | None => 0%Q end))
    (fun e =>
       st_error [Str "An error occurred while loading the savings goal: "; Str e] ;;
       ret 0%Q).

Definition save_automated_payment_to_database (df : list AutomatedPayment.t) : M unit :=
  try_except_sqlite3
    (conn <- sqlite3_connect ;;
     modify_store (fun db =>
       set_automated_payments_tbl (create_if_not_exists (automated_payments_tbl db)) db) ;;
     to_sql conn (fun db =>
       set_automated_payments_tbl (to_sql_append df (automated_payments_tbl db)) db))
    (fun e => st_error [Str "An error occurred while saving the automated payment: "; Str e]).

Definition load_automated_payments_from_database : M (DataFrame AutomatedPayment.t) :=
  try_except_sqlite3
    (conn <- sqlite3_connect ;;
     modify_store (fun db =>
       set_automated_payments_tbl (create_if_not_exists (automated_payments_tbl db)) db) ;;
     df <- pd_read_sql automated_payments_tbl conn ;;
     ret df)
    (fun e =>
       st_error [Str "An error occurred while loading automated payments: "; Str e] ;;
       pd_DataFrame).

Definition save_loan_to_database (df : list Loan.t) : M unit :=
  try_except_sqlite3
    (conn <- sqlite3_connect ;;
     modify_store (fun db => set_loans_tbl (create_if_not_exists (loans_tbl db)) db) ;;
     to_sql conn (fun db => set_loans_tbl (to_sql_append df (loans_tbl db)) db))
    (fun e => st_error [Str "An error occurred while saving the loan: "; Str e]).

Definition load_loans_from_database : M (DataFrame Loan.t) :=
  try_except_sqlite3
    (conn <- sqlite3_connect ;;
     modify_store (fun db => set_loans_tbl (create_if_not_exists (loans_tbl db)) db) ;;
     df <- pd_read_sql loans_tbl conn ;;
     ret df)
    (fun e =>
       st_error [Str "An error occurred while loading loans: "; Str e] ;;
       pd_DataFrame).

(** ** Frames of transactions *)

(** [df[col]] needs the column: the column-less frame raises [KeyError]. *)
Definition column {R : Type} (col : string) (df : DataFrame R) : M (list R) :=
  match df with
  | Blank => raise (KeyError col)
  | Table rows => ret rows
  end.

(** [df[df['Type'] == v]] *)
Definition select_Type (v : string) (df : DataFrame Transaction.t)
  : M (list Transaction.t) :=
  rows <- column "Type" df ;;
  ret (filter (fun t => String.eqb (Transaction.Type_ t) v) rows).

Definition Qlt_bool (x y : Q) : bool := negb (Qle_bool y x).

(** Python's [min(a, b)] and [max(a, b)]: the first argument wins a tie. *)
Definition py_min (a b : Q) : Q := if Qlt_bool b a then b else a.
Definition py_max (a b : Q) : Q := if Qlt_bool a b then b else a.

(** ** Widgets *)

(** [st.selectbox(label, options)]: the option the user picked, the first
    one before any pick. *)
Definition st_selectbox (options : list string) (picked : nat) : string :=
  nth picked options (hd EmptyString options).

(** [st.date_input(label, value)] *)
Definition st_date_input (value : date) (typed : option date) : date :=
  match typed with
  | Some d => d
  | None => value
  end.

(** [datetime.now().date()] *)
Definition datetime_now_date : M date := resolve "datetime" ;; get_today.

(** ** Dashboard (lines 36-74) *)

Definition total_income (rows : list Transaction.t) : Q :=
  Qsum (map Transaction.Amount
         (filter (fun t => String.eqb (Transaction.Type_ t) "Income") rows)).

Definition total_expenses (rows : list Transaction.t) : Q :=
  Qsum (map Transaction.Amount
         (filter (fun t => String.eqb (Transaction.Type_ t) "Expense") rows)).

(** Lines 55-61: the frame grouped by month and type, the types spread over
    columns with 0 where a month has no row of a type, the columns cut down
    to Income and Expense, and the Net column. *)
Definition monthly_summary (rows : list Transaction.t) : list MonthlyRow :=
  let grouped :=
    groupby_sum (fun t => (to_period_M (Transaction.Date t), Transaction.Type_ t))
                Transaction.Amount rows in
  let index := sort_keys (unique (map (fun g => fst (fst g)) grouped)) in
  map (fun m =>
         let income := get (m, "Income") 0%Q grouped in
         let expense := get (m, "Expense") 0%Q grouped in
         mkMonthly m income expense (income - expense)%Q)
      index.

Definition show_dashboard : M unit :=
  st_header "Financial Dashboard" ;;
  tx <- session_transactions ;;
  if empty tx then
    st_warning [Str "No transactions available. Please add transactions or upload a CSV file."]
  else
    income <- select_Type "Income" tx ;;
    let total_income := Qsum (map Transaction.Amount income) in
    expense <- select_Type "Expense" tx ;;
    let total_expenses := Qsum (map Transaction.Amount expense) in
    let net_savings := (total_income - total_expenses)%Q in
    st_metric "Total Income" [Money total_income] ;;
    st_metric "Total Expenses" [Money total_expenses] ;;
    st_metric "Net Savings" [Money net_savings] ;;
    st_subheader "Monthly Summary" ;;
    monthly_data <- column "Date" tx ;;
    resolve "pd" ;;
    let monthly_summary := monthly_summary monthly_data in
    resolve "px" ;;
    st_plotly_chart (px_bar monthly_summary "Monthly Income, Expenses, and Net Savings") ;;
    st_subheader "Expense Breakdown" ;;
    expense_data <- select_Type "Expense" tx ;;
    if negb (empty (Table expense_data)) then
      resolve "px" ;;
      st_plotly_chart (px_pie expense_data "Expense Breakdown")
    else
      st_info [Str "No expenses to display."].

(** ** Transactions (lines 76-106) *)

Definition transaction_categories : list string :=
  [ "Food & Groceries"; "Transportation"; "Housing/Rent"; "Utilities";
    "Entertainment"; "Shopping"; "Healthcare"; "Salary"; "Other" ].

Record TransactionForm := mkTransactionForm {
  tf_date : option date;
  tf_category : nat;
  tf_amount : option Q;
  tf_description : string;
  tf_type : nat;
  tf_add : bool
}.

(** [df.sort_values('Date', ascending=False)] on the ISO text of the dates. *)
Definition sort_values_Date_desc (rows : list Transaction.t) : list Transaction.t :=
  sort_by (fun a b => String.leb (isoformat (Transaction.Date b))
                                 (isoformat (Transaction.Date a))) rows.

Definition show_transactions (form : TransactionForm) : M unit :=
  st_header "Transactions" ;;
  st_subheader "Add New Transaction" ;;
  now <- datetime_now_date ;;
  let date := st_date_input now (tf_date form) in
  let category := st_selectbox transaction_categories (tf_category form) in
  let amount := st_number_input (1 # 100) (1 # 100) (tf_amount form) in
  let description := tf_description form in
  let transaction_type := st_selectbox ["Income"; "Expense"] (tf_type form) in
  when (tf_add form)
    (u <- session_user ;;
     let new_transaction :=
       [Transaction.mk date category amount description transaction_type u] in
     save_to_database new_transaction ;;
     df <- load_from_database ;;
     set_session_transactions df ;;
     st_success [Str "Transaction added successfully!"] ;;
     st_rerun) ;;
  st_subheader "Transaction History" ;;
  tx <- session_transactions ;;
  if negb (empty tx) then
    rows <- column "Date" tx ;;
    st_dataframe (frame_transactions (Table (sort_values_Date_desc rows)))
  else
    st_info [Str "No transactions available."].

(** ** Budget management (lines 108-153) *)

Definition categories : list string :=
  [ "Food & Groceries"; "Transportation"; "Housing/Rent"; "Utilities";
    "Entertainment"; "Shopping"; "Healthcare"; "Other" ].

Record BudgetForm := mkBudgetForm {
  bf_typed : string -> option Q;
  bf_save : bool
}.

(** Lines 117-121: one number input per category, which starts from the
    amount loaded from the budget table, 0.0 when there is none. *)
Definition new_budget_data (budget_data : list (string * Q)) (form : BudgetForm)
  : list (string * Q) :=
  fold_left
    (fun d category =>
       let current_budget := get category 0%Q budget_data in
       dict_set category (st_number_input 0 current_budget (bf_typed form category)) d)
    categories [].

(** Line 129 *)
Definition actual_spending (expense : list Transaction.t) : list (string * Q) :=
  groupby_sum Transaction.Category Transaction.Amount expense.

(** Lines 131-139 *)
Definition comparison_data (new_budget_data actual_spending : list (string * Q))
  : list ComparisonRow :=
  map (fun item =>
         let category := fst item in
         let budget := snd item in
         let actual := get category 0%Q actual_spending in
         mkComparison category budget actual (budget - actual)%Q)
      new_budget_data.

(** Lines 151-153 *)
Definition budget_alerts (comparison_df : list ComparisonRow) : M unit :=
  for_ comparison_df (fun row =>
    when (Qlt_bool (cmp_Budget row) (cmp_Actual row))
      (st_warning [Str "Overspending in "; Str (cmp_Category row);
                   Str ": Budget "; Money (cmp_Budget row);
                   Str ", Actual "; Money (cmp_Actual row)])).

Definition budget_management (form : BudgetForm) : M unit :=
  st_header "Budget Management" ;;
  budget_data <- load_budget_from_database ;;
  st_subheader "Set Budget Allocations" ;;
  let new_budget_data := new_budget_data budget_data form in
  when (bf_save form)
    (save_budget_to_database new_budget_data ;;
     st_success [Str "Budget saved successfully!"]) ;;
  st_subheader "Budget vs Actual Spending" ;;
  tx <- session_transactions ;;
  expense <- select_Type "Expense" tx ;;
  let actual_spending := actual_spending expense in
  let comparison_data := comparison_data new_budget_data actual_spending in
  resolve "pd" ;;
  let comparison_df := comparison_data in
  resolve "go" ;;
  let fig_comparison :=
    go_Figure
      [ ("Budget", map cmp_Category comparison_df, map cmp_Budget comparison_df);
        ("Actual", map cmp_Category comparison_df, map cmp_Actual comparison_df) ]
      "Budget vs Actual Spending" "group" in
  st_plotly_chart fig_comparison ;;
  st_subheader "Budget Alerts" ;;
  budget_alerts comparison_df.

(** ** Savings goals (lines 155-184) *)

Record SavingsForm := mkSavingsForm {
  sf_goal : option Q;
  sf_update : bool
}.

(** Line 173 *)
Definition expected_expenses (automated_payments : DataFrame AutomatedPayment.t) : M Q :=
  if negb (empty automated_payments) then
    rows <- column "Amount" automated_payments ;;
    ret (Qsum (map AutomatedPayment.Amount rows))
  else ret 0%Q.

(** Lines 179-180, as numbers. *)
Definition progress (adjusted_savings new_goal : Q) : Q :=
  let progress := if Qlt_bool 0 new_goal then (adjusted_savings / new_goal)%Q else 0%Q in
  py_max 0 (py_min progress 1).

Definition savings_goals (form : SavingsForm) : M unit :=
  st_header "Savings Goals" ;;
  current_goal <- session_savings_goal ;;
  let new_goal := st_number_input 0 current_goal (sf_goal form) in
  when (sf_update form)
    (set_session_savings_goal new_goal ;;
     save_savings_goal_to_database new_goal ;;
     st_success [Str "Savings goal updated successfully!"]) ;;
  tx <- session_transactions ;;
  income <- select_Type "Income" tx ;;
  let total_income := Qsum (map Transaction.Amount income) in
  expense <- select_Type "Expense" tx ;;
  let total_expenses := Qsum (map Transaction.Amount expense) in
  let total_savings := (total_income - total_expenses)%Q in
  automated_payments <- load_automated_payments_from_database ;;
  expected_expenses <- expected_expenses automated_payments ;;
  let adjusted_savings := (total_savings - expected_expenses)%Q in
  let progress := progress adjusted_savings new_goal in
  st_progress progress ;;
  st_write [Str "Current savings: "; Money adjusted_savings] ;;
  st_write [Str "Progress towards goal: "; Percent (progress * 100)%Q].

(** ** Automated payments (lines 186-213) *)

Record PaymentForm := mkPaymentForm {
  pf_name : string;
  pf_amount : option Q;
  pf_frequency : nat;
  pf_next : option date;
  pf_add : bool
}.

Definition automated_payments (form : PaymentForm) : M unit :=
  st_header "Automated Payments" ;;
  st_subheader "Add New Automated Payment" ;;
  let payment_name := pf_name form in
  let amount := st_number_input (1 # 100) (1 # 100) (pf_amount form) in
  let frequency := st_selectbox ["Weekly"; "Monthly"; "Yearly"] (pf_frequency form) in
  now <- datetime_now_date ;;
  let next_payment_date := st_date_input now (pf_next form) in
  when (pf_add form)
    (u <- session_user ;;
     let new_payment :=
       [AutomatedPayment.mk payment_name amount frequency next_payment_date u] in
     save_automated_payment_to_database new_payment ;;
     st_success [Str "Automated payment added successfully!"]) ;;
  st_subheader "Automated Payments List" ;;
  payments <- load_automated_payments_from_database ;;
  if negb (empty payments) then st_dataframe (frame_payments payments)
  else st_info [Str "No automated payments available."].

(** ** Loans (lines 215-256) *)

Record LoanForm := mkLoanForm {
  lf_name : string;
  lf_amount : option Q;
  lf_type : nat;
  lf_due : option date;
  lf_add : bool
}.

Definition loans (form : LoanForm) : M unit :=
  st_header "Loans Management" ;;
  st_subheader "Add New Loan" ;;
  let loan_name := lf_name form in
  let amount := st_number_input (1 # 100) (1 # 100) (lf_amount form) in
  let loan_type := st_selectbox ["Given"; "Taken"] (lf_type form) in
  now <- datetime_now_date ;;
  let due_date := st_date_input now (lf_due form) in
  when (lf_add form)
    (u <- session_user ;;
     let new_loan := [Loan.mk loan_name amount loan_type due_date u] in
     save_loan_to_database new_loan ;;
     st_success [Str "Loan added successfully!"] ;;
     when (String.eqb loan_type "Given")
       (d <- datetime_now_date ;;
        u <- session_user ;;
        let new_transaction :=
          [Transaction.mk d "Other" amount (String.append "Loan Given: " loan_name)
             "Expense" u] in
        save_to_database new_transaction ;;
        df <- load_from_database ;;
        set_session_transactions df ;;
        st_success [Str "Loan recorded as an expense in transactions!"])) ;;
  st_subheader "Loans List" ;;
  loans <- load_loans_from_database ;;
  if negb (empty loans) then st_dataframe (frame_loans loans)
  else st_info [Str "No loans available."].

(** ** CSV export (lines 258-268) *)

Definition comma : ascii := ascii_of_nat 44.
Definition dquote : ascii := ascii_of_nat 34.
Definition LF : ascii := ascii_of_nat 10.
Definition CR : ascii := ascii_of_nat 13.

Fixpoint has_char (p : ascii -> bool) (s : string) : bool :=
  match s with
  | EmptyString => false
  | String c s' => p c || has_char p s'
  end.

(** A line break in a cell: a line feed or a carriage return. *)
Definition is_line_break (c : ascii) : bool := Ascii.eqb c LF || Ascii.eqb c CR.

(** The characters that make the writer quote a field: the delimiter, the
    quote and the line terminator, which is the line feed. *)
Definition is_special (c : ascii) : bool :=
  Ascii.eqb c comma || Ascii.eqb c dquote || Ascii.eqb c LF.

Fixpoint double_quotes (s : string) : string :=
  match s with
  | EmptyString => EmptyString
  | String c s' =>
      if Ascii.eqb c dquote then String dquote (String dquote (double_quotes s'))
      else String c (double_quotes s')
  end.

(** The writer of Python's [csv] module with minimal quoting: a field goes
    between quotes when it holds a comma, a quote or a line feed. *)
Definition csv_field (s : string) : string :=
  if has_char is_special s
  then String dquote (String.append (double_quotes s) (String dquote EmptyString))
  else s.

Definition csv_record (fields : list string) : string :=
  String.concat (String comma EmptyString) (map csv_field fields).

Definition terminated (line : string) : string :=
  String.append line (String LF EmptyString).

Definition csv_line (fields : list string) : string := terminated (csv_record fields).

(** The lines of a text, cut at each line feed. *)
Fixpoint split_lines (s : string) : list string :=
  match s with
  | EmptyString => []
  | String c s' =>
      if Ascii.eqb c LF then EmptyString :: split_lines s'
      else match split_lines s' with
           | [] => [String c EmptyString]
           | l :: ls => String c l :: ls
           end
  end.

Section Application.

(** How pandas prints a float cell. *)
Variable repr_float : Q -> string.

(** The columns of the ledger in the order of the transactions table. *)
Definition transaction_columns : list (string * (Transaction.t -> string)) :=
  [ ("Date", fun t => isoformat (Transaction.Date t));
    ("Category", Transaction.Category);
    ("Amount", fun t => repr_float (Transaction.Amount t));
    ("Description", Transaction.Description);
    ("Type", Transaction.Type_);
    ("User", Transaction.User) ].

(** The lines [df.to_csv(index=False)] writes: the names of the columns, then
    one line per row. *)
Definition csv_lines (df : DataFrame Transaction.t) : list string :=
  match df with
  | Blank => [csv_line []]
  | Table rows =>
      csv_line (map fst transaction_columns)
      :: map (fun t => csv_line (map (fun c => snd c t) transaction_columns)) rows
  end.

Definition to_csv (df : DataFrame Transaction.t) : string :=
  String.concat EmptyString (csv_lines df).

Record ExportForm := mkExportForm { ef_export : bool }.

Definition data_export (form : ExportForm) : M unit :=
  st_header "Export Data" ;;
  when (ef_export form)
    (tx <- session_transactions ;;
     let csv := to_csv tx in
     st_download_button "Download CSV" csv "personal_finance_data.csv" "text/csv").

(** ** The script (lines 7-34) *)

Inductive page : Type :=
| Dashboard
| Transactions (form : TransactionForm)
| BudgetManagement (form : BudgetForm)
| SavingsGoals (form : SavingsForm)
| AutomatedPayments (form : PaymentForm)
| Loans (form : LoanForm)
| DataExport (form : ExportForm).

(** ['field' not in st.session_state] *)
Definition not_in_session {A : Type} (field : SessionState -> option A) : M bool :=
  resolve "st" ;;
  fun w => (Ok (match field (session_state w) with Some _ => false | None => true end), w).

Definition main (p : page) : M unit :=
  st_title "Personal Finance Manager ð°" ;;
  b <- not_in_session user ;;
  when b (set_session_user "default_user") ;;
  b <- not_in_session transactions ;;
  when b (df <- load_from_database ;; set_session_transactions df) ;;
  b <- not_in_session savings_goal ;;
  when b (g <- load_savings_goal_from_database ;; set_session_savings_goal g) ;;
  match p with
  | Dashboard => show_dashboard
  | Transactions form => show_transactions form
  | BudgetManagement form => budget_management form
  | SavingsGoals form => savings_goals form
  | AutomatedPayments form => automated_payments form
  | Loans form => loans form
  | DataExport form => data_export form
  end.

(** ** The application as a transition system

    A step is one run of the script: Streamlit clears the page, the user has
    picked a page and filled its widgets, and the environment decides the
    date and what goes wrong on the connections.  A new browser session starts
    from an empty session state over the same database file. *)

Definition fresh : World :=
  mkWorld (mkDatabase None None None None None) (mkSession None None None) []
          (mkDate 1970 1 1) [].

Definition run (p : page) (d : date) (faults : list (option fault)) (w : World) : World :=
  snd (main p (mkWorld (store w) (session_state w) [] d faults)).

Inductive reachable : World -> Prop :=
| reachable_fresh : reachable fresh
| reachable_run : forall p d faults w,
    reachable w -> reachable (run p d faults w)
| reachable_new_session : forall w,
    reachable w -> reachable (set_session (mkSession None None None) w).

End Application.

(** ** Vocabulary of the properties *)

(** Nothing goes wrong on the [k]-th connection of a run (counted from 0). *)
Definition connects (k : nat) (faults : list (option fault)) : Prop :=
  nth k faults None = None.

(** pandas meets no error on the [k]-th connection of a run: what goes wrong
    on it, if anything, is the [sqlite3.Error] of [sqlite3.connect]. *)
Definition pandas_ok (k : nat) (faults : list (option fault)) : Prop :=
  match nth k faults None with
  | Some (in_pandas _) => False
  | _ => True
  end.

(** What the expense breakdown shows (lines 69-74). *)
Definition expense_breakdown (rows : list Transaction.t) : ui :=
  let expense_data := filter (fun t => String.eqb (Transaction.Type_ t) "Expense") rows in
  if negb (empty (Table expense_data))
  then out_plotly_chart (px_pie expense_data "Expense Breakdown")
  else out_info [Str "No expenses to display."].

Definition in_month (m ty : string) (t : Transaction.t) : bool :=
  String.eqb (to_period_M (Transaction.Date t)) m && String.eqb (Transaction.Type_ t) ty.

(** The connection on which the savings page loads the automated payments:
    the second one of the run when the goal is being saved, and the first
    one otherwise. *)
Definition payments_load (form : SavingsForm) : nat := if sf_update form then 1 else 0.

(** The automated payments the savings page gets to see: the rows of the
    table, or nothing when [sqlite3.connect] raises at the load. *)
Definition payments_seen (db : Database) (form : SavingsForm)
  (faults : list (option fault)) : list AutomatedPayment.t :=
  match nth (if sf_update form then 1 else 0)%nat faults None with
  | None => rows_of (automated_payments_tbl db)
  | Some _ => []
  end.

(** The exceptions of the database: the driver's and the one of pandas. *)
Definition database_error (e : exn) : bool :=
  match e with
  | sqlite3_Error _ => true
  | pandas_DatabaseError _ => true
  | _ => false
  end.

(** A computation is contained when it never lets a database error out. *)
Definition contained {A : Type} (m : M A) : Prop :=
  forall w e, fst (m w) = Raise e -> database_error e = false.

Definition is_LF (c : ascii) : bool := Ascii.eqb c LF.

Definition cells (repr_float : Q -> string) (t : Transaction.t) : list string :=
  [ isoformat (Transaction.Date t); Transaction.Category t;
    repr_float (Transaction.Amount t); Transaction.Description t;
    Transaction.Type_ t; Transaction.User t ].

(** The primary key of the budget table: no two rows with one category. *)
Definition budget_unique (db : Database) : Prop :=
  NoDup (map fst (rows_of (budget_tbl db))).

(** A computation keeps a property of the database. *)
Definition preserves {A : Type} (P : Database -> Prop) (m : M A) : Prop :=
  forall w, P (store w) -> P (store (snd (m w))).

Definition expenses_of (c : string) (rows : list Transaction.t) : list Transaction.t :=
  filter (fun t => String.eqb (Transaction.Category t) c)
         (filter (fun t => String.eqb (Transaction.Type_ t) "Expense") rows).

Definition overspending (row : ComparisonRow) : bool :=
  Qlt_bool (cmp_Budget row) (cmp_Actual row).

Definition alert (row : ComparisonRow) : ui :=
  out_warning [Str "Overspending in "; Str (cmp_Category row);
               Str ": Budget "; Money (cmp_Budget row);
               Str ", Actual "; Money (cmp_Actual row)].

(** What the budget page never gets to put on the screen. *)
Definition chart_or_alert (o : ui) : bool :=
  match o with
  | out_plotly_chart _ => true
  | out_warning _ => true
  | _ => false
  end.

(** ** Examples *)

Definition example_ledger : list Transaction.t :=
  [ Transaction.mk (mkDate 2024 1 15) "Salary" 3000 "January pay" "Income" "default_user";
    Transaction.mk (mkDate 2024 1 20) "Food & Groceries" (241 # 2) "Market" "Expense" "default_user";
    Transaction.mk (mkDate 2024 2 3) "Other" 10 "Stamps" "Expense" "default_user" ].

Definition example_database : Database :=
  mkDatabase (Some example_ledger) (Some [("Other", 5%Q)]) None None None.

Definition example_session : SessionState :=
  mkSession (Some "default_user") (Some (Table example_ledger)) (Some 0%Q).

Definition example_payments : list AutomatedPayment.t :=
  [ AutomatedPayment.mk "Rent" 900 "Monthly" (mkDate 2024 3 1) "default_user";
    AutomatedPayment.mk "Insurance" 2500 "Yearly" (mkDate 2024 6 1) "default_user" ].

(** A printer of amounts for the examples: two decimals at most, one at
    least, as Python prints 3000.0, 120.5 and 12.34. *)
Definition example_repr_float (q : Q) : string :=
  let cents := Z.to_nat (Qfloor (q * 100)) in
  let frac := (cents mod 100)%nat in
  String.append (str_nat (cents / 100))
    (String.append "."
       (if Nat.eqb (frac mod 10) 0 then str_nat (frac / 10) else zfill 2 (str_nat frac))).

(** ** Vocabulary of the further properties *)

(** A list that only grew at its end. *)
Definition extends {R : Type} (old new : list R) : Prop :=
  exists added, new = old ++ added.

(** The three logs (transactions, automated payments, loans) only grew. *)
Definition logs_extend (w w' : World) : Prop :=
  extends (rows_of (transactions_tbl (store w))) (rows_of (transactions_tbl (store w')))
  /\ extends (rows_of (automated_payments_tbl (store w)))
             (rows_of (automated_payments_tbl (store w')))
  /\ extends (rows_of (loans_tbl (store w))) (rows_of (loans_tbl (store w'))).

(** The five tables hold the same rows. *)
Definition same_rows (w w' : World) : Prop :=
  rows_of (transactions_tbl (store w)) = rows_of (transactions_tbl (store w'))
  /\ rows_of (budget_tbl (store w)) = rows_of (budget_tbl (store w'))
  /\ rows_of (savings_goal_tbl (store w)) = rows_of (savings_goal_tbl (store w'))
  /\ rows_of (automated_payments_tbl (store w)) = rows_of (automated_payments_tbl (store w'))
  /\ rows_of (loans_tbl (store w)) = rows_of (loans_tbl (store w')).

(** Every run of a computation relates the world it starts from to the world
    it ends in. *)
Definition follows {A : Type} (R : World -> World -> Prop) (m : M A) : Prop :=
  forall w, R w (snd (m w)).

(** No button of the page is pressed. *)
Definition idle (p : page) : bool :=
  match p with
  | Dashboard => true
  | Transactions form => negb (tf_add form)
  | BudgetManagement form => negb (bf_save form)
  | SavingsGoals form => negb (sf_update form)
  | AutomatedPayments form => negb (pf_add form)
  | Loans form => negb (lf_add form)
  | DataExport form => true
  end.

(** What the widgets of the forms allow in a row. *)
Definition valid_transaction (t : Transaction.t) : Prop :=
  (1 # 100 <= Transaction.Amount t)%Q
  /\ In (Transaction.Type_ t) ["Income"; "Expense"]
  /\ In (Transaction.Category t) transaction_categories.

Definition valid_payment (p : AutomatedPayment.t) : Prop :=
  (1 # 100 <= AutomatedPayment.Amount p)%Q
  /\ In (AutomatedPayment.Frequency p) ["Weekly"; "Monthly"; "Yearly"].

Definition valid_loan (l : Loan.t) : Prop :=
  (1 # 100 <= Loan.Amount l)%Q
  /\ In (Loan.Type_ l) ["Given"; "Taken"].

Definition well_formed (db : Database) : Prop :=
  Forall valid_transaction (rows_of (transactions_tbl db))
  /\ Forall valid_payment (rows_of (automated_payments_tbl db))
  /\ Forall valid_loan (rows_of (loans_tbl db)).

(** The primary key of the savings goal table: one row per user. *)
Definition goal_unique (db : Database) : Prop :=
  NoDup (map fst (rows_of (savings_goal_tbl db))).

(** The session state is what it was. *)
Definition same_session (w w' : World) : Prop := session_state w' = session_state w.

(** * Properties *)

(** ** Keys *)

Class KeyLaws (K : Type) `{Key K} := {
  keqb_eq : forall a b : K, keqb a b = true <-> a = b
}.

#[global] Instance KeyLaws_string : KeyLaws string := {
  keqb_eq := String.eqb_eq
}.

Lemma pair_eqb_eq (a b : string * string) : pair_eqb a b = true <-> a = b.
Proof.
  destruct a as [a1 a2], b as [b1 b2]; unfold pair_eqb; simpl.
  rewrite andb_true_iff, !String.eqb_eq. split.
  - intros [-> ->]; reflexivity.
  - intros H; inversion H; auto.
Qed.

#[global] Instance KeyLaws_pair : KeyLaws (string * string) := {
  keqb_eq := pair_eqb_eq
}.

(** ** Running a page

    With these unfolding hints [cbn] runs a computation of [M] on a world
    that is given by its fields. *)

Arguments bind {A B} m k w /.
Arguments ret {A} a w /.
Arguments raise {A} e w /.
Arguments try_except_sqlite3 {A} body handler w /.
Arguments when b m /.
Arguments emit e w /.
Arguments resolve name /.
Arguments st_title s /.
Arguments st_header s /.
Arguments st_subheader s /.
Arguments st_error msg /.
Arguments st_warning msg /.
Arguments st_info msg /.
Arguments st_success msg /.
Arguments st_metric label value /.
Arguments st_plotly_chart fig /.
Arguments st_dataframe df /.
Arguments st_progress value /.
Arguments st_write msg /.
Arguments st_download_button label data file_name mime /.
Arguments st_rerun w /.
Arguments session_user w /.
Arguments session_transactions w /.
Arguments session_savings_goal w /.
Arguments set_session_user u w /.
Arguments set_session_transactions df w /.
Arguments set_session_savings_goal g w /.
Arguments not_in_session {A} field w /.
Arguments sqlite3_connect w /.
Arguments get_store w /.
Arguments get_today w /.
Arguments modify_store f w /.
Arguments datetime_now_date w /.
Arguments pd_read_sql {R} tbl conn /.
Arguments to_sql conn write /.
Arguments pd_DataFrame {R} w /.
Arguments select_budget w /.
Arguments select_Type v df /.
Arguments column {R} col df /.
Arguments set_store db w /.
Arguments set_session s w /.
Arguments set_screen o w /.
Arguments set_faults f w /.
Arguments set_transactions_tbl t db /.
Arguments set_budget_tbl t db /.
Arguments set_savings_goal_tbl t db /.
Arguments set_automated_payments_tbl t db /.
Arguments set_loans_tbl t db /.
Arguments empty : simpl never.
Arguments monthly_summary : simpl never.
Arguments new_budget_data : simpl never.
Arguments actual_spending : simpl never.
Arguments comparison_data : simpl never.
Arguments progress : simpl never.
Arguments st_number_input : simpl never.
Arguments sort_values_Date_desc : simpl never.
Arguments to_csv : simpl never.
Arguments insert_or_replace : simpl never.
Arguments save_budget_to_database : simpl never.

Lemma empty_Table {R : Type} (rows : list R) : rows <> [] -> empty (Table rows) = false.
Proof. destruct rows; [congruence | reflexivity]. Qed.

(** ** Sums *)

Lemma Qsum_nonneg (l : list Q) : Forall (fun q => 0 <= q)%Q l -> (0 <= Qsum l)%Q.
Proof.
  induction 1 as [|q l Hq _ IH]; simpl.
  - apply Qle_refl.
  - change 0%Q with (0 + 0)%Q at 1. apply Qplus_le_compat; assumption.
Qed.

Lemma Qsum_positive_amounts {R : Type} (val : R -> Q) (p : R -> bool) (rows : list R) :
  Forall (fun r => 0 < val r)%Q rows ->
  (0 <= Qsum (map val (filter p rows)))%Q.
Proof.
  intros Hpos. apply Qsum_nonneg. rewrite Forall_forall in *.
  intros q Hq. apply in_map_iff in Hq as (r & <- & Hr).
  apply filter_In in Hr as [Hr _]. apply Qlt_le_weak, Hpos, Hr.
Qed.

(** ** Groupings and dictionaries *)

Section GroupingFacts.
Context {K : Type} `{KeyLaws K}.

Lemma keqb_refl (k : K) : keqb k k = true.
Proof. apply keqb_eq; reflexivity. Qed.

Lemma keqb_neq (a b : K) : a <> b -> keqb a b = false.
Proof.
  intros Hab. destruct (keqb a b) eqn:E; [|reflexivity].
  apply keqb_eq in E. contradiction.
Qed.

Lemma keqb_sym (a b : K) : keqb a b = keqb b a.
Proof.
  destruct (keqb a b) eqn:E1, (keqb b a) eqn:E2; try reflexivity.
  - apply keqb_eq in E1; subst. rewrite keqb_refl in E2. discriminate.
  - apply keqb_eq in E2; subst. rewrite keqb_refl in E1. discriminate.
Qed.

Lemma mem_In (k : K) (l : list K) : mem k l = true <-> In k l.
Proof.
  unfold mem. rewrite existsb_exists. split.
  - intros (x & Hx & E). apply keqb_eq in E; subst; assumption.
  - intros Hk. exists k. split; [assumption | apply keqb_refl].
Qed.

Lemma insert_by_perm {A : Type} (leb : A -> A -> bool) (x : A) (l : list A) :
  Permutation (insert_by leb x l) (x :: l).
Proof.
  induction l as [|y l IH]; simpl; [reflexivity|].
  destruct (leb x y); [reflexivity|].
  rewrite IH. apply perm_swap.
Qed.

Lemma sort_by_perm {A : Type} (leb : A -> A -> bool) (l : list A) :
  Permutation (sort_by leb l) l.
Proof.
  induction l as [|x l IH]; simpl; [reflexivity|].
  unfold sort_by in *. simpl. rewrite insert_by_perm. constructor. exact IH.
Qed.

Lemma sort_keys_In (k : K) (l : list K) : In k (sort_keys l) <-> In k l.
Proof.
  split; apply Permutation_in; [|symmetry]; apply sort_by_perm.
Qed.

Lemma unique_In (k : K) (l : list K) : In k (unique l) <-> In k l.
Proof.
  induction l as [|x l IH]; simpl; [tauto|].
  rewrite filter_In, IH. split.
  - intros [-> | [Hk _]]; auto.
  - intros [-> | Hk]; [left; reflexivity|].
    destruct (keqb k x) eqn:E.
    + left. apply keqb_eq in E. auto.
    + right. split; [assumption | reflexivity].
Qed.

Lemma unique_NoDup (l : list K) : NoDup (unique l).
Proof.
  induction l as [|x l IH]; simpl; constructor.
  - rewrite filter_In. intros [_ Hx]. rewrite keqb_refl in Hx. discriminate.
  - apply NoDup_filter, IH.
Qed.

Lemma sorted_unique_NoDup (l : list K) : NoDup (sort_keys (unique l)).
Proof.
  eapply Permutation_NoDup; [symmetry; apply sort_by_perm | apply unique_NoDup].
Qed.

Lemma sorted_unique_In (k : K) (l : list K) : In k (sort_keys (unique l)) <-> In k l.
Proof. rewrite sort_keys_In. apply unique_In. Qed.

Lemma lookup_tabulate {V : Type} (f : K -> V) (k : K) (ks : list K) :
  lookup k (map (fun k' => (k', f k')) ks) = if mem k ks then Some (f k) else None.
Proof.
  induction ks as [|x ks IH]; simpl; [reflexivity|].
  rewrite (keqb_sym k x). destruct (keqb x k) eqn:E; simpl.
  - apply keqb_eq in E; subst; reflexivity.
  - exact IH.
Qed.

Lemma filter_no_key {R : Type} (key : R -> K) (k : K) (rows : list R) :
  ~ In k (map key rows) -> filter (fun r => keqb (key r) k) rows = [].
Proof.
  induction rows as [|r rows IH]; simpl; intros Hk; [reflexivity|].
  destruct (keqb (key r) k) eqn:E.
  - apply keqb_eq in E. tauto.
  - apply IH. tauto.
Qed.

(** A group that does not exist reads as the default 0, which is also the
    sum of its (no) rows. *)
Lemma get_groupby_sum {R : Type} (key : R -> K) (val : R -> Q) (rows : list R) (k : K) :
  get k 0%Q (groupby_sum key val rows)
  = Qsum (map val (filter (fun r => keqb (key r) k) rows)).
Proof.
  unfold get, groupby_sum.
  rewrite (lookup_tabulate (fun k => Qsum (map val (filter (fun r => keqb (key r) k) rows)))).
  destruct (mem k (sort_keys (unique (map key rows)))) eqn:E; [reflexivity|].
  rewrite filter_no_key; [reflexivity|].
  intros Hk. apply sorted_unique_In in Hk. apply mem_In in Hk. congruence.
Qed.

Lemma groupby_sum_keys {R : Type} (key : R -> K) (val : R -> Q) (rows : list R) :
  map fst (groupby_sum key val rows) = sort_keys (unique (map key rows)).
Proof.
  unfold groupby_sum. rewrite map_map. simpl. apply map_id.
Qed.

Lemma lookup_dict_set {V : Type} (k k' : K) (v : V) (d : list (K * V)) :
  lookup k (dict_set k' v d) = if keqb k' k then Some v else lookup k d.
Proof.
  induction d as [|[x y] d IH]; simpl.
  - reflexivity.
  - destruct (keqb x k') eqn:E; simpl.
    + apply keqb_eq in E; subst. destruct (keqb k' k); reflexivity.
    + rewrite IH. destruct (keqb x k) eqn:E2; [|reflexivity].
      apply keqb_eq in E2; subst. rewrite (keqb_sym k' k), E. reflexivity.
Qed.

Lemma dict_set_keys {V : Type} (k : K) (v : V) (d : list (K * V)) :
  map fst (dict_set k v d) = if mem k (map fst d) then map fst d else map fst d ++ [k].
Proof.
  induction d as [|[x y] d IH]; simpl; [reflexivity|].
  rewrite (keqb_sym k x). destruct (keqb x k) eqn:E; simpl; [reflexivity|].
  rewrite IH. destruct (mem k (map fst d)); reflexivity.
Qed.

End GroupingFacts.

(** ** Dashboard *)

Lemma show_dashboard_run rows db u g scr d faults :
  rows <> [] ->
  show_dashboard (mkWorld db (mkSession (Some u) (Some (Table rows)) g) scr d faults)
  = (Ok tt,
     mkWorld db (mkSession (Some u) (Some (Table rows)) g)
       (scr ++ [ out_header "Financial Dashboard";
                 out_metric "Total Income" [Money (total_income rows)];
                 out_metric "Total Expenses" [Money (total_expenses rows)];
                 out_metric "Net Savings" [Money (total_income rows - total_expenses rows)];
                 out_subheader "Monthly Summary";
                 out_plotly_chart (px_bar (monthly_summary rows)
                                     "Monthly Income, Expenses, and Net Savings");
                 out_subheader "Expense Breakdown";
                 expense_breakdown rows ])
       d faults).
Proof.
  intros Hne. unfold show_dashboard, expense_breakdown, total_income, total_expenses. cbn.
  rewrite (empty_Table rows Hne). cbn.
  destruct (negb _); cbn; rewrite <- !app_assoc; reflexivity.
Qed.

(** C4. Totals of a non-empty ledger: the dashboard shows the sum of Amount
    over the rows of Type Income, the sum over the rows of Type Expense, and
    their difference as net savings; with positive amounts both sums are at
    least 0. *)
Theorem dashboard_totals rows db u g scr d faults :
  rows <> [] ->
  Forall (fun t => (0 < Transaction.Amount t)%Q) rows ->
  let income :=
    Qsum (map Transaction.Amount
            (filter (fun t => String.eqb (Transaction.Type_ t) "Income") rows)) in
  let expenses :=
    Qsum (map Transaction.Amount
            (filter (fun t => String.eqb (Transaction.Type_ t) "Expense") rows)) in
  let net := (income - expenses)%Q in
  (exists rest,
     show_dashboard (mkWorld db (mkSession (Some u) (Some (Table rows)) g) scr d faults)
     = (Ok tt,
        mkWorld db (mkSession (Some u) (Some (Table rows)) g)
          (scr ++ [ out_header "Financial Dashboard";
                    out_metric "Total Income" [Money income];
                    out_metric "Total Expenses" [Money expenses];
                    out_metric "Net Savings" [Money net] ] ++ rest)
          d faults))
  /\ total_income rows = income
  /\ total_expenses rows = expenses
  /\ (0 <= income)%Q
  /\ (0 <= expenses)%Q.
Proof.
  intros Hne Hpos income expenses net.
  split; [|split; [reflexivity|split; [reflexivity|split]]].
  - eexists. rewrite (show_dashboard_run rows db u g scr d faults Hne). reflexivity.
  - apply Qsum_positive_amounts, Hpos.
  - apply Qsum_positive_amounts, Hpos.
Qed.

Lemma dashboard_totals_witness :
  example_ledger <> []
  /\ Forall (fun t => (0 < Transaction.Amount t)%Q) example_ledger
  /\ total_income example_ledger = 3000%Q
  /\ (0 <= total_expenses example_ledger)%Q.
Proof.
  assert (H1 : example_ledger <> []) by discriminate.
  assert (H2 : Forall (fun t => (0 < Transaction.Amount t)%Q) example_ledger)
    by (repeat constructor).
  destruct (dashboard_totals example_ledger example_database "default_user" None []
              (mkDate 2024 2 4) [] H1 H2) as (_ & _ & _ & _ & Hexp).
  split; [exact H1|split; [exact H2|split; [reflexivity|exact Hexp]]].
Defined.

(** ** Monthly rollup *)

Lemma monthly_summary_months (rows : list Transaction.t) :
  map Month (monthly_summary rows)
  = sort_keys (unique (map fst (sort_keys (unique
      (map (fun t => (to_period_M (Transaction.Date t), Transaction.Type_ t)) rows))))).
Proof.
  unfold monthly_summary. rewrite map_map. simpl. rewrite map_id.
  rewrite <- (map_map fst fst), groupby_sum_keys. reflexivity.
Qed.

Lemma monthly_summary_month_iff (rows : list Transaction.t) (m : string) :
  In m (map Month (monthly_summary rows))
  <-> In m (map (fun t => to_period_M (Transaction.Date t)) rows).
Proof.
  rewrite monthly_summary_months, sorted_unique_In.
  rewrite !in_map_iff. split.
  - intros ([m' ty] & <- & Hin). rewrite sorted_unique_In in Hin.
    apply in_map_iff in Hin as (t & E & Ht). inversion E; subst.
    exists t. auto.
  - intros (t & <- & Ht).
    exists (to_period_M (Transaction.Date t), Transaction.Type_ t). split; [reflexivity|].
    apply sorted_unique_In. apply in_map_iff. exists t. auto.
Qed.

(** C2. Monthly rollup: every row of the summary carries the Income total and
    the Expense total of its month, each the sum over the rows of that month
    and Type and 0 when there is none, and Net = Income - Expense; the months
    of the summary are the months that have a transaction, each once; and
    this summary is what the dashboard of a non-empty ledger charts. *)
Theorem monthly_rollup (rows : list Transaction.t) :
  let summary := monthly_summary rows in
  Forall (fun r =>
            Income r = Qsum (map Transaction.Amount (filter (in_month (Month r) "Income") rows))
            /\ Expense r = Qsum (map Transaction.Amount (filter (in_month (Month r) "Expense") rows))
            /\ (filter (in_month (Month r) "Income") rows = [] -> Income r = 0%Q)
            /\ (filter (in_month (Month r) "Expense") rows = [] -> Expense r = 0%Q)
            /\ Net r = (Income r - Expense r)%Q)
         summary
  /\ NoDup (map Month summary)
  /\ (forall m, In m (map Month summary)
                <-> exists t, In t rows /\ to_period_M (Transaction.Date t) = m)
  /\ (forall db u g scr d faults,
        rows <> [] ->
        exists before after w',
          show_dashboard (mkWorld db (mkSession (Some u) (Some (Table rows)) g) scr d faults)
          = (Ok tt, w')
          /\ screen w'
             = before ++ out_plotly_chart
                           (px_bar summary "Monthly Income, Expenses, and Net Savings")
                         :: after).
Proof.
  intros summary. split; [|split; [|split]].
  - subst summary. unfold monthly_summary.
    apply Forall_forall. intros r Hr. apply in_map_iff in Hr as (m & <- & _). simpl.
    rewrite !get_groupby_sum.
    change (fun r : Transaction.t =>
              keqb (to_period_M (Transaction.Date r), Transaction.Type_ r) (m, "Income"))
      with (in_month m "Income").
    change (fun r : Transaction.t =>
              keqb (to_period_M (Transaction.Date r), Transaction.Type_ r) (m, "Expense"))
      with (in_month m "Expense").
    repeat split; try reflexivity; intros ->; reflexivity.
  - subst summary. rewrite monthly_summary_months. apply sorted_unique_NoDup.
  - intros m. subst summary. rewrite monthly_summary_month_iff, in_map_iff.
    split; intros (t & Ht1 & Ht2); exists t; auto.
  - intros db u g scr d faults Hne.
    rewrite (show_dashboard_run rows db u g scr d faults Hne).
    eexists (scr ++ [_; _; _; _; _]), [_; _], _. split; [reflexivity|].
    simpl. rewrite <- app_assoc. reflexivity.
Qed.

Lemma monthly_rollup_witness :
  example_ledger <> []
  /\ monthly_summary example_ledger
     = [ mkMonthly "2024-01" 3000 (241 # 2) (3000 - (241 # 2));
         mkMonthly "2024-02" 0 10 (0 - 10) ]
  /\ exists before after,
       screen (snd (show_dashboard
                      (mkWorld example_database example_session [] (mkDate 2024 2 4) [])))
       = before ++ out_plotly_chart
                     (px_bar (monthly_summary example_ledger)
                        "Monthly Income, Expenses, and Net Savings") :: after.
Proof.
  assert (H1 : example_ledger <> []) by discriminate.
  split; [exact H1|]. split; [vm_compute; reflexivity|].
  destruct (monthly_rollup example_ledger) as (_ & _ & _ & Hpage).
  destruct (Hpage example_database "default_user" (Some 0%Q) [] (mkDate 2024 2 4) [] H1)
    as (before & after & w' & Hrun & Hscreen).
  exists before, after. unfold example_session. rewrite Hrun. exact Hscreen.
Defined.

(** ** Savings progress *)

Lemma Qlt_bool_true (x y : Q) : Qlt_bool x y = true <-> (x < y)%Q.
Proof.
  unfold Qlt_bool. rewrite negb_true_iff. split.
  - intros E. apply Qnot_le_lt. intros Hle. apply Qle_bool_iff in Hle. congruence.
  - intros Hlt. destruct (Qle_bool y x) eqn:E; [|reflexivity].
    apply Qle_bool_iff in E. exfalso. exact (Qlt_not_le _ _ Hlt E).
Qed.

Lemma Qlt_bool_false (x y : Q) : Qlt_bool x y = false <-> (y <= x)%Q.
Proof.
  unfold Qlt_bool. rewrite negb_false_iff. apply Qle_bool_iff.
Qed.

Lemma progress_bounds (adjusted goal : Q) :
  (0 <= progress adjusted goal <= 1)%Q.
Proof.
  unfold progress, py_max, py_min.
  set (p := if Qlt_bool 0 goal then (adjusted / goal)%Q else 0%Q).
  destruct (Qlt_bool 1 p) eqn:E1.
  - replace (Qlt_bool 0 1) with true by reflexivity. split; discriminate.
  - destruct (Qlt_bool 0 p) eqn:E2.
    + apply Qlt_bool_true in E2. apply Qlt_bool_false in E1.
      split; [apply Qlt_le_weak|]; assumption.
    + split; discriminate.
Qed.

Lemma progress_no_goal (adjusted goal : Q) :
  (goal <= 0)%Q -> progress adjusted goal = 0%Q.
Proof.
  intros Hg. unfold progress. apply Qlt_bool_false in Hg. rewrite Hg. reflexivity.
Qed.

Lemma progress_reached (adjusted goal : Q) :
  (0 < goal)%Q -> (goal <= adjusted)%Q -> (progress adjusted goal == 1)%Q.
Proof.
  intros Hg Ha. unfold progress, py_max, py_min.
  rewrite (proj2 (Qlt_bool_true 0 goal) Hg).
  assert (H1 : (1 <= adjusted / goal)%Q).
  { apply Qle_shift_div_l; [assumption|]. rewrite Qmult_1_l. assumption. }
  destruct (Qlt_bool 1 (adjusted / goal)) eqn:E1.
  - reflexivity.
  - apply Qlt_bool_false in E1.
    assert (E : (adjusted / goal == 1)%Q) by (apply Qle_antisym; assumption).
    destruct (Qlt_bool 0 (adjusted / goal)) eqn:E2; [exact E|].
    apply Qlt_bool_false in E2. exfalso.
    apply (Qlt_not_le 0 1); [reflexivity|]. eapply Qle_trans; eassumption.
Qed.

Lemma progress_negative (adjusted goal : Q) :
  (adjusted < 0)%Q -> progress adjusted goal = 0%Q.
Proof.
  intros Ha. unfold progress, py_max, py_min.
  destruct (Qlt_bool 0 goal) eqn:Eg; [|reflexivity].
  apply Qlt_bool_true in Eg.
  assert (Hneg : (adjusted / goal < 0)%Q).
  { apply Qlt_shift_div_r; [assumption|]. rewrite Qmult_0_l. assumption. }
  assert (E1 : Qlt_bool 1 (adjusted / goal) = false).
  { apply Qlt_bool_false. apply Qlt_le_weak. eapply Qlt_trans; [eassumption|reflexivity]. }
  rewrite E1.
  assert (E2 : Qlt_bool 0 (adjusted / goal) = false).
  { apply Qlt_bool_false. apply Qlt_le_weak. assumption. }
  rewrite E2. reflexivity.
Qed.

Lemma progress_fraction (adjusted goal : Q) :
  (0 < goal)%Q -> (0 <= adjusted)%Q -> (adjusted <= goal)%Q ->
  (progress adjusted goal == adjusted / goal)%Q.
Proof.
  intros Hg H0 H1. unfold progress, py_max, py_min.
  rewrite (proj2 (Qlt_bool_true 0 goal) Hg).
  assert (Hle : (adjusted / goal <= 1)%Q).
  { apply Qle_shift_div_r; [assumption|]. rewrite Qmult_1_l. assumption. }
  rewrite (proj2 (Qlt_bool_false 1 (adjusted / goal)) Hle).
  destruct (Qlt_bool 0 (adjusted / goal)) eqn:E2; [reflexivity|].
  apply Qlt_bool_false in E2.
  assert (Hge : (0 <= adjusted / goal)%Q).
  { apply Qle_shift_div_l; [assumption|]. rewrite Qmult_0_l. assumption. }
  apply Qle_antisym; assumption.
Qed.

Arguments expected_expenses : simpl never.

Lemma expected_expenses_Table (rows : list AutomatedPayment.t) (w : World) :
  expected_expenses (Table rows) w = (Ok (Qsum (map AutomatedPayment.Amount rows)), w).
Proof. destruct rows; reflexivity. Qed.

Lemma expected_expenses_Blank (w : World) :
  expected_expenses Blank w = (Ok 0%Q, w).
Proof. reflexivity. Qed.

Ltac screen_suffix tac :=
  first [ exists (@nil ui); tac | eexists [_]; tac | eexists [_; _]; tac
        | eexists [_; _; _]; tac | eexists [_; _; _; _]; tac
        | eexists [_; _; _; _; _]; tac | eexists [_; _; _; _; _; _]; tac ].

Lemma savings_goals_run rows db u g scr d faults form :
  pandas_ok (payments_load form) faults ->
  let new_goal := st_number_input 0 g (sf_goal form) in
  let adjusted :=
    (total_income rows - total_expenses rows
     - Qsum (map AutomatedPayment.Amount (payments_seen db form faults)))%Q in
  let p := progress adjusted new_goal in
  exists before w',
    savings_goals form
      (mkWorld db (mkSession (Some u) (Some (Table rows)) (Some g)) scr d faults)
    = (Ok tt, w')
    /\ screen w'
       = scr ++ before ++ [ out_progress p;
                            out_write [Str "Current savings: "; Money adjusted];
                            out_write [Str "Progress towards goal: "; Percent (p * 100)%Q] ].
Proof.
  destruct form as [typed upd], db as [t1 t2 t3 t4 t5].
  unfold pandas_ok, payments_load, payments_seen, savings_goals, total_income,
    total_expenses.
  intros Hp.
  destruct upd, faults as [|[[e1|e1]|] [|[[e2|e2]|] fs]], t4 as [pay|];
    cbn in Hp; try contradiction; cbn;
    rewrite ?expected_expenses_Table, ?expected_expenses_Blank; cbn;
    screen_suffix ltac:(eexists; split; [reflexivity|];
                        cbn; rewrite <- ?app_assoc; reflexivity).
Qed.

(** When pandas meets an error at the load of the automated payments, the
    page stops with it at line 172. *)
Lemma savings_goals_pandas_error rows db u g scr d faults form e :
  nth (payments_load form) faults None = Some (in_pandas e) ->
  fst (savings_goals form
         (mkWorld db (mkSession (Some u) (Some (Table rows)) (Some g)) scr d faults))
  = Raise (pandas_DatabaseError e).
Proof.
  destruct form as [typed upd], db as [t1 t2 t3 t4 t5].
  unfold payments_load, savings_goals.
  destruct upd, faults as [|[[e1|e1]|] [|[[e2|e2]|] fs]]; cbn;
    intros Hp; try discriminate Hp; inversion Hp; subst; reflexivity.
Qed.

(** On the column-less frame that a failed load leaves in the session the
    page stops at line 167: the frame has no Type column. *)
Lemma savings_goals_Blank db u g scr d faults typed :
  fst (savings_goals (mkSavingsForm typed false)
         (mkWorld db (mkSession (Some u) (Some Blank) (Some g)) scr d faults))
  = Raise (KeyError "Type").
Proof. reflexivity. Qed.

(** C1. Savings progress: on every ledger (a frame with the transaction
    columns, whatever its rows), every automated-payments table and every
    goal the savings page takes savings = income - expenses, subtracts
    the sum of the amounts of all the automated payments it loaded, whatever
    their frequency, and shows that adjusted figure as it is; the progress it
    shows is adjusted / goal when the goal is above 0 and 0 otherwise, cut to
    the range from 0 to 1: it is 0 when the goal is 0, 1 when
    adjusted >= goal > 0, and 0 when adjusted < 0.  The page gets that far
    unless pandas meets an error at the load of the automated payments,
    which stops it. *)
Theorem savings_progress rows db u g scr d faults form :
  let new_goal := st_number_input 0 g (sf_goal form) in
  let savings := (total_income rows - total_expenses rows)%Q in
  let adjusted :=
    (savings - Qsum (map AutomatedPayment.Amount (payments_seen db form faults)))%Q in
  let p := progress adjusted new_goal in
  (pandas_ok (payments_load form) faults ->
   exists before w',
     savings_goals form
       (mkWorld db (mkSession (Some u) (Some (Table rows)) (Some g)) scr d faults)
     = (Ok tt, w')
     /\ screen w'
        = scr ++ before ++ [ out_progress p;
                             out_write [Str "Current savings: "; Money adjusted];
                             out_write [Str "Progress towards goal: "; Percent (p * 100)%Q] ])
  /\ p = py_max 0 (py_min (if Qlt_bool 0 new_goal then adjusted / new_goal else 0)%Q 1)
  /\ (0 <= p <= 1)%Q
  /\ ((new_goal == 0)%Q -> p = 0%Q)
  /\ ((0 < new_goal)%Q -> (new_goal <= adjusted)%Q -> (p == 1)%Q)
  /\ ((adjusted < 0)%Q -> p = 0%Q)
  /\ ((0 < new_goal)%Q -> (0 <= adjusted)%Q -> (adjusted <= new_goal)%Q ->
      (p == adjusted / new_goal)%Q)
  /\ (forall e,
        nth (payments_load form) faults None = Some (in_pandas e) ->
        fst (savings_goals form
               (mkWorld db (mkSession (Some u) (Some (Table rows)) (Some g)) scr d faults))
        = Raise (pandas_DatabaseError e)).
Proof.
  intros new_goal savings adjusted p.
  split; [apply savings_goals_run|].
  split; [reflexivity|].
  split; [apply progress_bounds|].
  split; [intros E; apply progress_no_goal; rewrite E; apply Qle_refl|].
  split; [apply progress_reached|].
  split; [apply progress_negative|].
  split; [apply progress_fraction|].
  intros e. apply savings_goals_pandas_error.
Qed.

Lemma savings_progress_witness :
  let db := mkDatabase (Some example_ledger) None None (Some example_payments) None in
  let adjusted :=
    (total_income example_ledger - total_expenses example_ledger
     - Qsum (map AutomatedPayment.Amount
               (payments_seen db (mkSavingsForm (Some 1000%Q) false) [])))%Q in
  (adjusted == - (1061 # 2))%Q
  /\ (adjusted < 0)%Q
  /\ pandas_ok (payments_load (mkSavingsForm (Some 1000%Q) false)) []
  /\ progress adjusted (st_number_input 0 0 (Some 1000%Q)) = 0%Q
  /\ exists before,
       screen (snd (savings_goals (mkSavingsForm (Some 1000%Q) false)
                      (mkWorld db example_session [] (mkDate 2024 2 4) [])))
       = before ++ [ out_progress 0;
                     out_write [Str "Current savings: "; Money adjusted];
                     out_write [Str "Progress towards goal: "; Percent (0 * 100)%Q] ].
Proof.
  intros db adjusted.
  assert (Hneg : (adjusted < 0)%Q) by reflexivity.
  assert (Hok : pandas_ok (payments_load (mkSavingsForm (Some 1000%Q) false)) [])
    by exact I.
  split; [reflexivity|]. split; [exact Hneg|]. split; [exact Hok|].
  destruct (savings_progress example_ledger db "default_user" 0%Q [] (mkDate 2024 2 4) []
              (mkSavingsForm (Some 1000%Q) false)) as (Hrun & _ & _ & _ & _ & H & _).
  split; [exact (H Hneg)|].
  destruct (Hrun Hok) as (before & w' & Hpage & Hscreen).
  exists before. unfold example_session. rewrite Hpage. cbn [snd]. rewrite Hscreen.
  rewrite (H Hneg). reflexivity.
Defined.

(** ** The transactions table: append and reload *)

Lemma rows_of_create {R : Type} (tbl : option (list R)) :
  rows_of (create_if_not_exists tbl) = rows_of tbl.
Proof. destruct tbl; reflexivity. Qed.

Lemma rows_of_append {R : Type} (df : list R) (tbl : option (list R)) :
  rows_of (to_sql_append df tbl) = rows_of tbl ++ df.
Proof. destruct tbl; reflexivity. Qed.

(** C6. Append and reload: on every state of the store, when a transaction is
    appended and the ledger is loaded again (the database raising no error),
    the ledger is the one that was there before followed by the new record,
    so it holds every earlier record and a record whose six fields are the
    submitted ones; the transactions page does exactly this with the values
    of its form. *)
Theorem append_then_reload db sess scr d faults (r : Transaction.t) :
  connects 0 faults -> connects 1 faults ->
  let w := mkWorld db sess scr d faults in
  (exists prior later w0 w1 w2,
     load_from_database w = (Ok (Table prior), w0)
     /\ save_to_database [r] w = (Ok tt, w1)
     /\ load_from_database w1 = (Ok (Table later), w2)
     /\ later = prior ++ [r]
     /\ incl prior later
     /\ (exists r', In r' later
                    /\ Transaction.Date r' = Transaction.Date r
                    /\ Transaction.Category r' = Transaction.Category r
                    /\ Transaction.Amount r' = Transaction.Amount r
                    /\ Transaction.Description r' = Transaction.Description r
                    /\ Transaction.Type_ r' = Transaction.Type_ r
                    /\ Transaction.User r' = Transaction.User r)
     /\ transactions_tbl (store w2) = Some later)
  /\ (forall form u tx g,
        tf_add form = true ->
        let submitted :=
          Transaction.mk (st_date_input d (tf_date form))
            (st_selectbox transaction_categories (tf_category form))
            (st_number_input (1 # 100) (1 # 100) (tf_amount form))
            (tf_description form)
            (st_selectbox ["Income"; "Expense"] (tf_type form))
            u in
        exists w',
          show_transactions form (mkWorld db (mkSession (Some u) tx g) scr d faults)
          = (Raise RerunException, w')
          /\ transactions_tbl (store w')
             = Some (rows_of (transactions_tbl db) ++ [submitted])
          /\ transactions (session_state w')
             = Some (Table (rows_of (transactions_tbl db) ++ [submitted]))).
Proof.
  intros H0 H1 w. subst w. unfold connects in H0, H1.
  destruct db as [t1 t2 t3 t4 t5].
  split.
  - exists (rows_of t1), (rows_of t1 ++ [r]).
    destruct faults as [|[e|] [|[e'|] fs]], t1 as [old|]; try discriminate;
      (eexists _, _, _; split; [reflexivity|]; split; [reflexivity|];
       split; [reflexivity|]; split; [reflexivity|];
       split; [apply incl_appl, incl_refl|];
       split; [|reflexivity];
       exists r; split; [apply in_or_app; right; left; reflexivity|];
       repeat split; reflexivity).
  - intros [fd fc fa fdesc fty fadd] u tx g Hadd. cbn in Hadd. subst fadd.
    unfold show_transactions.
    destruct faults as [|[e|] [|[e'|] fs]]; try discriminate; cbn;
      rewrite ?rows_of_create, ?rows_of_append;
      (eexists; split; [reflexivity|]; split; [destruct t1; reflexivity|reflexivity]).
Qed.

Lemma append_then_reload_witness :
  let form := mkTransactionForm None 8 (Some 25%Q) "Stamps" 1 true in
  let submitted :=
    Transaction.mk (mkDate 2024 2 4) "Other" 25 "Stamps" "Expense" "default_user" in
  connects 0 [] /\ connects 1 [] /\ tf_add form = true
  /\ transactions
       (session_state
          (snd (show_transactions form
                  (mkWorld example_database example_session [] (mkDate 2024 2 4) []))))
     = Some (Table (example_ledger ++ [submitted])).
Proof.
  intros form submitted.
  assert (H0 : connects 0 []) by reflexivity.
  assert (H1 : connects 1 []) by reflexivity.
  assert (H : tf_add form = true) by reflexivity.
  split; [exact H0|]. split; [exact H1|]. split; [exact H|].
  destruct (append_then_reload example_database example_session [] (mkDate 2024 2 4) []
              submitted H0 H1) as (_ & Hpage).
  destruct (Hpage form "default_user" (Some (Table example_ledger)) (Some 0%Q) H)
    as (w' & Hrun & _ & Hsession).
  unfold example_session. rewrite Hrun. exact Hsession.
Defined.

(** ** Loans *)

(** C5. A loan submitted with type Given appends exactly one transaction to
    the ledger (the database raising no error on that write and on the
    reload): an Expense of category Other, described as "Loan Given: "
    followed by the name of the loan, with the amount of the loan and the
    date of the day; this happens whether or not the connection for the loan
    row itself could be opened, as long as pandas meets no error in the
    write of the loan row, which would stop the page before.  A loan
    submitted with type Taken leaves the transactions table and the ledger
    of the session as they were, whatever goes wrong.  In both cases the
    page ends normally unless pandas meets an error on one of its
    connections. *)
Theorem loan_given_appends_expense db u tx g scr d faults name typed due :
  let amount := st_number_input (1 # 100) (1 # 100) typed in
  let prior := rows_of (transactions_tbl db) in
  let synthetic :=
    Transaction.mk d "Other" amount (String.append "Loan Given: " name) "Expense" u in
  let w := mkWorld db (mkSession (Some u) tx g) scr d faults in
  (connects 1 faults -> connects 2 faults -> pandas_ok 0 faults ->
   exists r w',
     loans (mkLoanForm name typed 0 due true) w = (r, w')
     /\ transactions_tbl (store w') = Some (prior ++ [synthetic])
     /\ transactions (session_state w') = Some (Table (prior ++ [synthetic]))
     /\ (pandas_ok 3 faults -> r = Ok tt))
  /\ (exists r w',
        loans (mkLoanForm name typed 1 due true) w = (r, w')
        /\ transactions_tbl (store w') = transactions_tbl db
        /\ transactions (session_state w') = tx
        /\ (pandas_ok 0 faults -> pandas_ok 1 faults -> r = Ok tt)).
Proof.
  intros amount prior synthetic w. subst amount prior synthetic w.
  unfold connects, pandas_ok.
  destruct db as [t1 t2 t3 t4 t5]. cbn [transactions_tbl].
  split.
  - intros H1 H2 H0. unfold loans.
    destruct faults as [|f0 [|[e1|] [|[e2|] [|f3 fs]]]]; try discriminate;
      try destruct f0 as [[e0|e0]|]; try destruct f3 as [[e3|e3]|];
      cbn in H0; try contradiction;
      destruct t5 as [[|l0 l]|]; cbn;
      unfold empty; cbn; rewrite ?rows_of_create, ?rows_of_append;
      (eexists _, _; split; [reflexivity|]);
      (split; [destruct t1; reflexivity|]); (split; [reflexivity|]);
      intros H3; cbn in H3; try contradiction; reflexivity.
  - unfold loans.
    destruct faults as [|[[e|e]|] [|[[e'|e']|] fs']], t5 as [[|l0 l]|]; cbn;
      unfold empty; cbn;
      (eexists _, _; split; [reflexivity|]);
      (split; [reflexivity|]); (split; [reflexivity|]);
      intros H0 H1; cbn in H0, H1; try contradiction; reflexivity.
Qed.

(** The scenario of a Given loan of 100 named Car. *)
Lemma loan_given_car :
  let w := mkWorld example_database example_session [] (mkDate 2024 2 4) [] in
  connects 1 [] /\ connects 2 [] /\ pandas_ok 0 [] /\ pandas_ok 3 []
  /\ fst (loans (mkLoanForm "Car" (Some 100%Q) 0 None true) w) = Ok tt
  /\ transactions_tbl
       (store (snd (loans (mkLoanForm "Car" (Some 100%Q) 0 None true) w)))
     = Some (example_ledger
             ++ [Transaction.mk (mkDate 2024 2 4) "Other" 100 "Loan Given: Car" "Expense"
                   "default_user"]).
Proof.
  intros w.
  assert (H1 : connects 1 []) by reflexivity.
  assert (H2 : connects 2 []) by reflexivity.
  assert (H0 : pandas_ok 0 []) by exact I.
  assert (H3 : pandas_ok 3 []) by exact I.
  split; [exact H1|]. split; [exact H2|]. split; [exact H0|]. split; [exact H3|].
  destruct (loan_given_appends_expense example_database "default_user"
              (Some (Table example_ledger)) (Some 0%Q) [] (mkDate 2024 2 4) []
              "Car" (Some 100%Q) None) as (Hgiven & _).
  destruct (Hgiven H1 H2 H0) as (r & w' & Hrun & Htbl & _ & Hok).
  unfold w, example_session. rewrite Hrun. split; [exact (Hok H3) | exact Htbl].
Defined.

(** ** CSV export *)

Arguments data_export : simpl never.

Lemma has_char_append (p : ascii -> bool) (a b : string) :
  has_char p (String.append a b) = has_char p a || has_char p b.
Proof.
  induction a as [|c a IH]; simpl; [reflexivity|].
  rewrite IH. apply orb_assoc.
Qed.

Lemma no_line_break_no_LF (s : string) :
  has_char is_line_break s = false -> has_char is_LF s = false.
Proof.
  induction s as [|c s IH]; simpl; [reflexivity|].
  unfold is_line_break at 1, is_LF at 1.
  intros H. apply orb_false_iff in H as [H1 H2].
  apply orb_false_iff in H1 as [H1 _]. rewrite H1. simpl. apply IH, H2.
Qed.

Lemma double_quotes_no_LF (s : string) :
  has_char is_LF s = false -> has_char is_LF (double_quotes s) = false.
Proof.
  induction s as [|c s IH]; simpl; [reflexivity|].
  intros H. apply orb_false_iff in H as [H1 H2].
  destruct (Ascii.eqb c dquote) eqn:E; simpl.
  - apply Ascii.eqb_eq in E; subst c. apply IH, H2.
  - rewrite H1. simpl. apply IH, H2.
Qed.

Lemma csv_field_no_LF (s : string) :
  has_char is_LF s = false -> has_char is_LF (csv_field s) = false.
Proof.
  intros H. unfold csv_field. destruct (has_char is_special s); [|exact H].
  simpl. rewrite has_char_append, (double_quotes_no_LF s H). reflexivity.
Qed.

Lemma csv_record_no_LF (fields : list string) :
  Forall (fun cell => has_char is_line_break cell = false) fields ->
  has_char is_LF (csv_record fields) = false.
Proof.
  unfold csv_record. induction 1 as [|f fields Hf Hfs IH]; [reflexivity|].
  apply no_line_break_no_LF, csv_field_no_LF in Hf.
  simpl. destruct (map csv_field fields) eqn:E; [exact Hf|].
  rewrite has_char_append, Hf. simpl. exact IH.
Qed.

Lemma split_lines_terminated (a rest : string) :
  has_char is_LF a = false ->
  split_lines (String.append (terminated a) rest) = a :: split_lines rest.
Proof.
  unfold terminated. induction a as [|c a IH]; simpl; intros H.
  - reflexivity.
  - apply orb_false_iff in H as [H1 H2]. unfold is_LF in H1. rewrite H1.
    rewrite (IH H2). reflexivity.
Qed.

Lemma concat_lines_cons (l : string) (ls : list string) :
  String.concat EmptyString (l :: ls) = String.append l (String.concat EmptyString ls).
Proof.
  destruct ls; simpl; [|reflexivity].
  induction l; simpl; congruence.
Qed.

Lemma split_lines_concat (records : list string) :
  Forall (fun a => has_char is_LF a = false) records ->
  split_lines (String.concat EmptyString (map terminated records)) = records.
Proof.
  induction 1 as [|a records Ha _ IH]; [reflexivity|].
  cbn [map]. rewrite concat_lines_cons, (split_lines_terminated _ _ Ha), IH. reflexivity.
Qed.

(** C7. CSV export: the export of a ledger of N records (a frame with the
    transaction columns and N rows) offers a file named
    personal_finance_data.csv whose content is N+1 written lines: the header
    Date,Category,Amount,Description,Type,User and then one line per record,
    in the order of the ledger, with the six columns in that order.  When no
    cell holds a line break these are also the lines of the text. *)
Theorem csv_export repr_float rows db u g scr d faults :
  let header_line := "Date,Category,Amount,Description,Type,User" in
  let content := to_csv repr_float (Table rows) in
  data_export repr_float (mkExportForm true)
    (mkWorld db (mkSession u (Some (Table rows)) g) scr d faults)
  = (Ok tt,
     mkWorld db (mkSession u (Some (Table rows)) g)
       (scr ++ [ out_header "Export Data";
                 out_download_button "Download CSV" content
                   "personal_finance_data.csv" "text/csv" ])
       d faults)
  /\ content = String.concat EmptyString (csv_lines repr_float (Table rows))
  /\ csv_lines repr_float (Table rows)
     = terminated header_line
       :: map (fun t => terminated (csv_record (cells repr_float t))) rows
  /\ List.length (csv_lines repr_float (Table rows)) = S (List.length rows)
  /\ (Forall (fun t => Forall (fun cell => has_char is_line_break cell = false)
                         (cells repr_float t)) rows ->
      split_lines content
      = header_line :: map (fun t => csv_record (cells repr_float t)) rows).
Proof.
  intros header_line content. subst header_line content.
  split; [|split; [|split; [|split]]].
  - unfold data_export. cbn. rewrite <- app_assoc. reflexivity.
  - reflexivity.
  - reflexivity.
  - simpl. rewrite length_map. reflexivity.
  - intros Hcells. unfold to_csv.
    replace (csv_lines repr_float (Table rows))
      with (map terminated
              ("Date,Category,Amount,Description,Type,User"
               :: map (fun t => csv_record (cells repr_float t)) rows))
      by (cbn [map]; rewrite map_map; reflexivity).
    apply split_lines_concat.
    constructor; [reflexivity|].
      apply Forall_forall. intros a Ha. apply in_map_iff in Ha as (t & <- & Ht).
      apply csv_record_no_LF. rewrite Forall_forall in Hcells. apply Hcells, Ht.
Qed.

Lemma csv_export_witness :
  Forall (fun t => Forall (fun cell => has_char is_line_break cell = false)
                     (cells example_repr_float t)) example_ledger
  /\ split_lines (to_csv example_repr_float (Table example_ledger))
     = [ "Date,Category,Amount,Description,Type,User";
         "2024-01-15,Salary,3000.0,January pay,Income,default_user";
         "2024-01-20,Food & Groceries,120.5,Market,Expense,default_user";
         "2024-02-03,Other,10.0,Stamps,Expense,default_user" ].
Proof.
  assert (H : Forall (fun t => Forall (fun cell => has_char is_line_break cell = false)
                                 (cells example_repr_float t)) example_ledger)
    by (repeat constructor).
  split; [exact H|].
  destruct (csv_export example_repr_float example_ledger example_database
              (Some "default_user") None [] (mkDate 2024 2 4) [])
    as (_ & _ & _ & _ & Hlines).
  exact (Hlines H).
Defined.

(** ** The budget table *)

Section Preservation.
Variable P : Database -> Prop.

Lemma preserves_same_store {A : Type} (m : M A) :
  (forall w, store (snd (m w)) = store w) -> preserves P m.
Proof. intros E w Hw. rewrite E. exact Hw. Qed.

Lemma preserves_ret {A : Type} (a : A) : preserves P (ret a).
Proof. intros w Hw. exact Hw. Qed.

Lemma preserves_raise {A : Type} (e : exn) : preserves P (@raise A e).
Proof. intros w Hw. exact Hw. Qed.

Lemma preserves_bind {A B : Type} (m : M A) (k : A -> M B) :
  preserves P m -> (forall a, preserves P (k a)) -> preserves P (bind m k).
Proof.
  intros Hm Hk w Hw. unfold bind. specialize (Hm w Hw).
  destruct (m w) as [[a|e] w']; simpl in *; [apply Hk|]; assumption.
Qed.

Lemma preserves_try {A : Type} (body : M A) (handler : string -> M A) :
  preserves P body -> (forall e, preserves P (handler e)) ->
  preserves P (try_except_sqlite3 body handler).
Proof.
  intros Hb Hh w Hw. unfold try_except_sqlite3. specialize (Hb w Hw).
  destruct (body w) as [[a|[n|k|n|msg|msg|]] w']; simpl in *; try assumption.
  apply Hh. assumption.
Qed.

Lemma preserves_when (b : bool) (m : M unit) : preserves P m -> preserves P (when b m).
Proof. destruct b; [auto | intros _; apply preserves_ret]. Qed.

Lemma preserves_for {A : Type} (l : list A) (body : A -> M unit) :
  (forall x, preserves P (body x)) -> preserves P (for_ l body).
Proof.
  intros Hb. induction l as [|x l IH]; simpl.
  - apply preserves_ret.
  - apply preserves_bind; [apply Hb | intros _; exact IH].
Qed.

Lemma preserves_modify (f : Database -> Database) :
  (forall db, P db -> P (f db)) -> preserves P (modify_store f).
Proof. intros Hf w Hw. simpl. apply Hf, Hw. Qed.

Lemma preserves_resolve (name : string) : preserves P (resolve name).
Proof. unfold resolve. destruct (mem name module_globals); intros w Hw; exact Hw. Qed.

Lemma preserves_emit (e : ui) : preserves P (emit e).
Proof.
  unfold emit. apply preserves_bind; [apply preserves_resolve|].
  intros _ w Hw. exact Hw.
Qed.

Lemma preserves_connect : preserves P sqlite3_connect.
Proof.
  unfold sqlite3_connect. apply preserves_bind; [apply preserves_resolve|].
  intros _ w Hw. destruct w as [db s o t [|[[e|e]|] fs]]; exact Hw.
Qed.

Lemma preserves_session {A : Type} (f : World -> res A * World) :
  (forall w, store (snd (f w)) = store w) ->
  preserves P (resolve "st" ;; f).
Proof.
  intros E. apply preserves_bind; [apply preserves_resolve|].
  intros _. apply preserves_same_store, E.
Qed.

End Preservation.

Section UpsertFacts.
Context {K : Type} `{KeyLaws K} {V : Type}.

Lemma filter_keys_In (p : K * V -> bool) (c : K) (l : list (K * V)) :
  In c (map fst (filter p l)) -> In c (map fst l).
Proof.
  rewrite !in_map_iff. intros (r & E & Hr). apply filter_In in Hr as [Hr _].
  exists r. auto.
Qed.

Lemma filter_keys_NoDup (p : K * V -> bool) (l : list (K * V)) :
  NoDup (map fst l) -> NoDup (map fst (filter p l)).
Proof.
  induction l as [|r l IH]; simpl; intros Hl; [constructor|].
  inversion Hl as [|? ? Hr Hl']; subst.
  destruct (p r); simpl; [|apply IH, Hl'].
  constructor; [|apply IH, Hl'].
  intros Hin. apply Hr. eapply filter_keys_In, Hin.
Qed.

Lemma insert_or_replace_NoDup (k : K) (v : V) (l : list (K * V)) :
  NoDup (map fst l) -> NoDup (map fst (insert_or_replace k v l)).
Proof.
  intros Hl. unfold insert_or_replace. rewrite map_app. apply NoDup_app.
  - apply filter_keys_NoDup, Hl.
  - simpl. constructor; [intros []|constructor].
  - intros a Ha [Hka|[]]. subst a. apply in_map_iff in Ha as (r & E & Hr).
    apply filter_In in Hr as [_ Hr]. rewrite E, keqb_refl in Hr. discriminate.
Qed.

(** One row for the key after the statement, whatever was there before. *)
Lemma insert_or_replace_one_row (k : K) (v : V) (l : list (K * V)) :
  filter (fun r => keqb (fst r) k) (insert_or_replace k v l) = [(k, v)].
Proof.
  unfold insert_or_replace. rewrite filter_app. simpl. rewrite keqb_refl.
  replace (filter _ (filter _ l)) with (@nil (K * V)); [reflexivity|].
  symmetry. induction l as [|r l IH]; simpl; [reflexivity|].
  destruct (keqb (fst r) k) eqn:E; simpl; [exact IH|]. rewrite E. exact IH.
Qed.

Lemma lookup_None_keys (c : K) (l : list (K * V)) :
  lookup c l = None -> ~ In c (map fst l).
Proof.
  induction l as [|[x y] l IH]; simpl; [tauto|].
  destruct (keqb x c) eqn:E; [discriminate|].
  intros Hl [->|Hin]; [rewrite keqb_refl in E; discriminate | exact (IH Hl Hin)].
Qed.

Lemma dict_of_rows_absent (c : K) (rows d : list (K * V)) :
  ~ In c (map fst rows) -> lookup c (dict_of_rows rows d) = lookup c d.
Proof.
  revert d. induction rows as [|[x y] rows IH]; simpl; intros d Hc; [reflexivity|].
  unfold dict_of_rows in *. simpl. rewrite IH by tauto.
  rewrite lookup_dict_set, keqb_neq; [reflexivity|]. intros ->. tauto.
Qed.

Lemma dict_of_rows_last (k : K) (v : V) (rows d : list (K * V)) :
  lookup k (dict_of_rows (rows ++ [(k, v)]) d) = Some v.
Proof.
  unfold dict_of_rows. rewrite fold_left_app. simpl.
  rewrite lookup_dict_set, keqb_refl. reflexivity.
Qed.

End UpsertFacts.

Lemma budget_unique_create (db : Database) :
  budget_unique db ->
  budget_unique (set_budget_tbl (create_if_not_exists (budget_tbl db)) db).
Proof. unfold budget_unique. simpl. rewrite rows_of_create. auto. Qed.

Lemma budget_unique_upsert (c : string) (a : Q) (db : Database) :
  budget_unique db ->
  budget_unique (set_budget_tbl (Some (insert_or_replace c a (rows_of (budget_tbl db)))) db).
Proof. unfold budget_unique. simpl. apply insert_or_replace_NoDup. Qed.

Ltac same_store :=
  apply preserves_same_store; intros [? ? ? ? ?]; simpl;
  repeat match goal with
         | |- context [match ?x with _ => _ end] => destruct x; simpl
         end;
  reflexivity.

Ltac keep :=
  repeat first
    [ apply preserves_ret
    | apply preserves_raise
    | apply preserves_emit
    | apply preserves_resolve
    | apply preserves_connect
    | apply preserves_when
    | apply preserves_for; intro
    | apply preserves_try; [|intro]
    | apply preserves_bind; [|intro]
    | apply preserves_modify; intros ? ?; assumption
    | apply preserves_modify; intros ? ?; apply budget_unique_create; assumption
    | apply preserves_modify; intros ? ?; apply budget_unique_upsert; assumption
    | same_store
    | match goal with
      | |- preserves _ (if ?b then _ else _) => destruct b
      | |- preserves _ (match ?x with _ => _ end) => destruct x
      end ].

Lemma save_budget_keeps_unique budget_data :
  preserves budget_unique (save_budget_to_database budget_data).
Proof. unfold save_budget_to_database. keep. Qed.

Lemma load_budget_keeps_unique : preserves budget_unique load_budget_from_database.
Proof. unfold load_budget_from_database, select_budget. keep. Qed.

Lemma show_dashboard_keeps_unique : preserves budget_unique show_dashboard.
Proof. unfold show_dashboard, select_Type, column. keep. Qed.

Lemma main_keeps_unique repr_float (p : page) :
  preserves budget_unique (main repr_float p).
Proof.
  unfold main. destruct p;
    unfold show_dashboard, show_transactions, budget_management, savings_goals,
      automated_payments, loans, data_export, budget_alerts, expected_expenses,
      load_from_database, save_to_database, load_budget_from_database,
      save_budget_to_database, select_budget, load_savings_goal_from_database,
      save_savings_goal_to_database, load_automated_payments_from_database,
      save_automated_payment_to_database, load_loans_from_database,
      save_loan_to_database, pd_read_sql, to_sql, pd_DataFrame, select_Type, column,
      datetime_now_date, st_rerun, not_in_session, session_user,
      session_transactions, session_savings_goal, set_session_user,
      set_session_transactions, set_session_savings_goal, get_store, get_today;
    keep.
Qed.

Lemma reachable_budget_unique repr_float (w : World) :
  reachable repr_float w -> budget_unique (store w).
Proof.
  induction 1 as [|p d faults w _ IH|w _ IH].
  - constructor.
  - unfold run. apply main_keeps_unique. exact IH.
  - exact IH.
Qed.

Lemma for_upsert (items : list (string * Q)) (w : World) :
  for_ items (fun item =>
    modify_store (fun db =>
      set_budget_tbl
        (Some (insert_or_replace (fst item) (snd item) (rows_of (budget_tbl db)))) db)) w
  = (Ok tt,
     set_store
       (fold_left (fun db item =>
          set_budget_tbl
            (Some (insert_or_replace (fst item) (snd item) (rows_of (budget_tbl db)))) db)
          items (store w)) w).
Proof.
  revert w. induction items as [|item items IH]; intros [db s o t f]; simpl.
  - reflexivity.
  - rewrite IH. reflexivity.
Qed.

(** The state of the database after a budget was saved. *)
Lemma save_budget_to_database_connected budget_data db s o t fs :
  save_budget_to_database budget_data (mkWorld db s o t (None :: fs))
  = (Ok tt,
     mkWorld
       (fold_left (fun db item =>
          set_budget_tbl
            (Some (insert_or_replace (fst item) (snd item) (rows_of (budget_tbl db)))) db)
          budget_data (set_budget_tbl (create_if_not_exists (budget_tbl db)) db))
       s o t fs).
Proof. unfold save_budget_to_database. cbn. rewrite for_upsert. reflexivity. Qed.

Lemma save_budget_to_database_unfaulted budget_data db s o t :
  save_budget_to_database budget_data (mkWorld db s o t [])
  = (Ok tt,
     mkWorld
       (fold_left (fun db item =>
          set_budget_tbl
            (Some (insert_or_replace (fst item) (snd item) (rows_of (budget_tbl db)))) db)
          budget_data (set_budget_tbl (create_if_not_exists (budget_tbl db)) db))
       s o t []).
Proof. unfold save_budget_to_database. cbn. rewrite for_upsert. reflexivity. Qed.

Lemma save_budget_to_database_faulted budget_data db s o t e fs :
  save_budget_to_database budget_data (mkWorld db s o t (Some (at_connect e) :: fs))
  = (Ok tt,
     mkWorld db s
       (o ++ [out_error [Str "An error occurred while saving the budget: "; Str e]]) t fs).
Proof. reflexivity. Qed.

(** The budget is saved without pandas: an error that only pandas would meet
    on the connection changes nothing. *)
Lemma save_budget_to_database_pandas budget_data db s o t e fs :
  save_budget_to_database budget_data (mkWorld db s o t (Some (in_pandas e) :: fs))
  = save_budget_to_database budget_data (mkWorld db s o t (None :: fs)).
Proof. reflexivity. Qed.

(** C8. Budget upsert: in every state the application can reach, the budget
    table has no two rows with one category; saving the budget that gives 200
    to "Food & Groceries" leaves one row for it, and the budget loaded after
    that gives exactly 200 for it and 0.0 for every other category that had
    no row before. *)
Theorem budget_upsert_unique_and_read_back repr_float :
  (forall w, reachable repr_float w -> NoDup (map fst (rows_of (budget_tbl (store w)))))
  /\ (forall db sess scr d faults,
        connects 0 faults -> connects 1 faults ->
        exists w1 w2 budget_data,
          save_budget_to_database [("Food & Groceries", 200%Q)]
            (mkWorld db sess scr d faults)
          = (Ok tt, w1)
          /\ filter (fun row => String.eqb (fst row) "Food & Groceries")
                    (rows_of (budget_tbl (store w1)))
             = [("Food & Groceries", 200%Q)]
          /\ load_budget_from_database w1 = (Ok budget_data, w2)
          /\ lookup "Food & Groceries" budget_data = Some 200%Q
          /\ get "Food & Groceries" 0%Q budget_data = 200%Q
          /\ (forall c,
                c <> "Food & Groceries" ->
                lookup c (rows_of (budget_tbl db)) = None ->
                get c 0%Q budget_data = 0%Q)).
Proof.
  split; [apply reachable_budget_unique|].
  unfold connects. intros [t1 t2 t3 t4 t5] sess scr d faults H0 H1.
  destruct faults as [|[e|] [|[e'|] fs]]; try discriminate;
    (eexists _, _, _; split; [reflexivity|]); cbn; rewrite rows_of_create.
  all: clear H0 H1.
  all: split; [exact (@insert_or_replace_one_row string _ _ Q "Food & Groceries" 200%Q
                        (rows_of t2))|].
  all: split; [reflexivity|].
  all: unfold insert_or_replace.
  all: assert (E : lookup "Food & Groceries"
                (dict_of_rows
                   (filter (fun r => negb (keqb (fst r) "Food & Groceries")) (rows_of t2)
                    ++ [("Food & Groceries", 200%Q)]) [])
              = Some 200%Q) by apply dict_of_rows_last.
  all: split; [exact E|]; split; [unfold get; rewrite E; reflexivity|].
  all: intros c Hc Hnone; unfold get.
  all: rewrite dict_of_rows_absent; [reflexivity|].
  all: rewrite map_app; intros Hin; apply in_app_or in Hin as [Hin|[Hin|[]]];
    [ apply filter_keys_In in Hin; exact (lookup_None_keys c _ Hnone Hin)
    | apply Hc; symmetry; exact Hin ].
Qed.

Lemma budget_upsert_witness :
  let form := mkBudgetForm (fun c => if String.eqb c "Food & Groceries"
                                     then Some 200%Q else None) true in
  let w := run example_repr_float (BudgetManagement form) (mkDate 2024 2 4) []
             (run example_repr_float (BudgetManagement form) (mkDate 2024 2 3) [] fresh) in
  let w0 := mkWorld example_database example_session [] (mkDate 2024 2 4) [] in
  reachable example_repr_float w
  /\ NoDup (map fst (rows_of (budget_tbl (store w))))
  /\ List.length (rows_of (budget_tbl (store w))) = 8%nat
  /\ connects 0 [] /\ connects 1 []
  /\ "Transportation" <> "Food & Groceries"
  /\ lookup "Transportation" (rows_of (budget_tbl example_database)) = None
  /\ exists budget_data,
       fst (load_budget_from_database
              (snd (save_budget_to_database [("Food & Groceries", 200%Q)] w0)))
       = Ok budget_data
       /\ get "Food & Groceries" 0%Q budget_data = 200%Q
       /\ get "Transportation" 0%Q budget_data = 0%Q.
Proof.
  intros form w w0.
  assert (H : reachable example_repr_float w)
    by (apply reachable_run, reachable_run, reachable_fresh).
  assert (H0 : connects 0 []) by reflexivity.
  assert (H1 : connects 1 []) by reflexivity.
  assert (Hc : "Transportation" <> "Food & Groceries") by discriminate.
  assert (Hn : lookup "Transportation" (rows_of (budget_tbl example_database)) = None)
    by reflexivity.
  destruct (budget_upsert_unique_and_read_back example_repr_float) as (Hinv & Hback).
  split; [exact H|]. split; [exact (Hinv w H)|]. split; [reflexivity|].
  split; [exact H0|]. split; [exact H1|]. split; [exact Hc|]. split; [exact Hn|].
  destruct (Hback example_database example_session [] (mkDate 2024 2 4) [] H0 H1)
    as (w1 & w2 & budget_data & Hsave & _ & Hload & _ & Hget & Hother).
  exists budget_data. unfold w0. rewrite Hsave. cbn [snd]. rewrite Hload.
  split; [reflexivity|]. split; [exact Hget | exact (Hother _ Hc Hn)].
Defined.

(** ** The budget page *)

(** On the column-less frame that a failed load leaves in the session the
    page stops at line 129: the frame has no Type column. *)
Lemma budget_management_Blank (w : World) (form : BudgetForm) :
  transactions (session_state w) = Some Blank ->
  fst (budget_management form w) = Raise (KeyError "Type").
Proof.
  destruct w as [[t1 t2 t3 t4 t5] [u tx g] scr d faults], form as [typed save].
  cbn [session_state transactions]. intros ->. unfold budget_management.
  destruct save, faults as [|[[e1|e1]|] [|[[e2|e2]|] fs]], t2 as [budget|];
    cbn;
    rewrite ?save_budget_to_database_pandas,
      ?save_budget_to_database_connected, ?save_budget_to_database_unfaulted,
      ?save_budget_to_database_faulted;
    reflexivity.
Qed.

(** C10. The budget page and the name [go]: no import binds [go], so on every
    ledger (a frame with the transaction columns) and every budget form the
    page raises NameError when it comes to build the comparison chart; no
    run of the page draws the chart or reaches the overspending alerts.  (A
    session without a ledger, or with the column-less frame of a failed
    load, stops the page even before the chart.) *)
Theorem budget_chart_name_error (w : World) (form : BudgetForm) :
  lookup "go" imports = None
  /\ mem "go" module_globals = false
  /\ exists e out w',
       budget_management form w = (Raise e, w')
       /\ e = match transactions (session_state w) with
              | Some (Table _) => NameError "go"
              | Some Blank => KeyError "Type"
              | None => AttributeError "transactions"
              end
       /\ screen w' = screen w ++ out
       /\ existsb chart_or_alert out = false.
Proof.
  split; [reflexivity|]. split; [reflexivity|].
  destruct w as [[t1 t2 t3 t4 t5] [u tx g] scr d faults], form as [typed save].
  unfold budget_management.
  destruct save, faults as [|[[e1|e1]|] [|[[e2|e2]|] fs]], t2 as [budget|],
    tx as [[|rows]|];
    cbn;
    rewrite ?save_budget_to_database_pandas,
      ?save_budget_to_database_connected, ?save_budget_to_database_unfaulted,
      ?save_budget_to_database_faulted;
    cbn;
    (eexists _, _, _; split; [reflexivity|]; split; [reflexivity|]; cbn;
     rewrite <- ?app_assoc; split; reflexivity).
Qed.

(** The comparison the budget page computes before it comes to the chart:
    one row per budget category, in the order of the form, with the amount
    of the form (the saved amount, 0.0 without one, unless the user typed
    another), the sum of the expenses of the category (0 without any) and
    their difference. *)
Lemma budget_comparison (budget_data : list (string * Q)) (form : BudgetForm)
  (rows : list Transaction.t) :
  let expense := filter (fun t => String.eqb (Transaction.Type_ t) "Expense") rows in
  let comparison :=
    comparison_data (new_budget_data budget_data form) (actual_spending expense) in
  map cmp_Category comparison = categories
  /\ Forall (fun row =>
               In (cmp_Category row) categories
               /\ cmp_Budget row
                  = st_number_input 0 (get (cmp_Category row) 0%Q budget_data)
                      (bf_typed form (cmp_Category row))
               /\ cmp_Actual row
                  = Qsum (map Transaction.Amount (expenses_of (cmp_Category row) rows))
               /\ cmp_Difference row = (cmp_Budget row - cmp_Actual row)%Q)
            comparison.
Proof.
  intros expense comparison. subst comparison.
  unfold comparison_data, actual_spending.
  change (new_budget_data budget_data form)
    with (map (fun c => (c, st_number_input 0 (get c 0%Q budget_data) (bf_typed form c)))
              categories).
  split; [rewrite !map_map; reflexivity|].
  apply Forall_forall. intros row Hrow. rewrite map_map in Hrow.
  apply in_map_iff in Hrow as (c & <- & Hc).
  cbn [cmp_Category cmp_Budget cmp_Actual cmp_Difference fst snd].
  rewrite get_groupby_sum. repeat split; try reflexivity. exact Hc.
Qed.

(** The loop of lines 151-153, were it reached: one warning for each row
    whose actual spending is above its budget, and for no other. *)
Lemma budget_alerts_run (comparison_df : list ComparisonRow) (w : World) :
  budget_alerts comparison_df w
  = (Ok tt, set_screen (screen w ++ map alert (filter overspending comparison_df)) w).
Proof.
  unfold budget_alerts. revert w.
  induction comparison_df as [|row l IH]; intros [db s o t f]; simpl.
  - rewrite app_nil_r. reflexivity.
  - unfold overspending at 1. destruct (Qlt_bool (cmp_Budget row) (cmp_Actual row)); simpl.
    + rewrite IH. simpl. rewrite <- app_assoc. reflexivity.
    + rewrite IH. reflexivity.
Qed.

(** C3. Budget comparison on a ledger with one overspent category: with 5
    budgeted for Other and 10 spent, the comparison row is (Other, 5, 10,
    5 - 10) and the alerts loop would warn about it, but the page stops with
    NameError at the chart and shows neither chart nor warning. *)
Theorem budget_overspending_never_flagged :
  let w := mkWorld example_database example_session [] (mkDate 2024 2 4) [] in
  let form := mkBudgetForm (fun _ => None) false in
  let expense :=
    filter (fun t => String.eqb (Transaction.Type_ t) "Expense") example_ledger in
  let comparison :=
    comparison_data (new_budget_data [("Other", 5%Q)] form) (actual_spending expense) in
  let row := mkComparison "Other" 5 10 (5 - 10) in
  In row comparison
  /\ overspending row = true
  /\ In (alert row) (screen (snd (budget_alerts comparison w)))
  /\ fst (budget_management form w) = Raise (NameError "go")
  /\ existsb chart_or_alert (screen (snd (budget_management form w))) = false.
Proof.
  cbv zeta. split; [|split; [|split; [|split]]].
  - vm_compute. tauto.
  - reflexivity.
  - vm_compute. tauto.
  - vm_compute. reflexivity.
  - vm_compute. reflexivity.
Qed.

(** ** Database errors *)

Lemma load_budget_contained : contained load_budget_from_database.
Proof.
  intros [[t1 [budget|] t3 t4 t5] s o t [|[[e0|e0]|] fs]] e; cbn;
    intros E; inversion E.
Qed.

Lemma load_savings_goal_contained : contained load_savings_goal_from_database.
Proof.
  intros [db [[u|] tx g] o t [|[[e0|e0]|] fs]] e; cbn;
    intros E; inversion E; reflexivity.
Qed.

Lemma save_savings_goal_contained (goal : Q) :
  contained (save_savings_goal_to_database goal).
Proof.
  intros [db [[u|] tx g] o t [|[[e0|e0]|] fs]] e; cbn;
    intros E; inversion E; reflexivity.
Qed.

Lemma save_budget_contained (budget_data : list (string * Q)) :
  contained (save_budget_to_database budget_data).
Proof.
  intros [db s o t [|[[e0|e0]|] fs]] e;
    rewrite ?save_budget_to_database_pandas,
      ?save_budget_to_database_connected, ?save_budget_to_database_unfaulted,
      ?save_budget_to_database_faulted;
    cbn; intros E; inversion E.
Qed.

(** C9. Error fallback, and where it ends.  The helpers catch
    [sqlite3.Error] only.  When [sqlite3.connect] raises it, each of the ten
    helpers puts an error notice on the page and returns instead of raising,
    with the store as it was: the loaders of the ledger, of the automated
    payments and of the loans return an empty frame, the loader of the
    budget an empty mapping, the loader of the savings goal 0, and the
    savers return without a result; the same holds for the budget loader
    when its table was never created.  The four helpers of the budget and of
    the savings goal, which run their statements themselves, let no database
    error out.  But an error met by pandas, in [pd.read_sql] or [df.to_sql],
    is a [pandas.errors.DatabaseError]: the three loaders and the three
    savers that go through pandas let it out, with no notice on the page and
    no result, and with nothing written by the savers. *)
Theorem database_error_escapes db sess scr d e fs :
  let w := mkWorld db sess scr d (Some (in_pandas e) :: fs) in
  let raised := pandas_DatabaseError e in
  let left (db' : Database) := mkWorld db' sess scr d fs in
  let caught := mkWorld db sess scr d (Some (at_connect e) :: fs) in
  let noticed (msg : string) := mkWorld db sess (scr ++ [out_error [Str msg; Str e]]) d fs in
  (load_from_database w
   = (Raise raised,
      left (set_transactions_tbl (create_if_not_exists (transactions_tbl db)) db))
   /\ load_automated_payments_from_database w
      = (Raise raised,
         left (set_automated_payments_tbl
                 (create_if_not_exists (automated_payments_tbl db)) db))
   /\ load_loans_from_database w
      = (Raise raised, left (set_loans_tbl (create_if_not_exists (loans_tbl db)) db))
   /\ (forall df, save_to_database df w = (Raise raised, left db))
   /\ (forall df,
         save_automated_payment_to_database df w
         = (Raise raised,
            left (set_automated_payments_tbl
                    (create_if_not_exists (automated_payments_tbl db)) db)))
   /\ (forall df,
         save_loan_to_database df w
         = (Raise raised, left (set_loans_tbl (create_if_not_exists (loans_tbl db)) db))))
  /\ database_error raised = true
  /\ (~ contained load_from_database
      /\ ~ contained load_automated_payments_from_database
      /\ ~ contained load_loans_from_database
      /\ (forall df, ~ contained (save_to_database df))
      /\ (forall df, ~ contained (save_automated_payment_to_database df))
      /\ (forall df, ~ contained (save_loan_to_database df)))
  /\ (load_from_database caught
      = (Ok Blank, noticed "An error occurred while loading from the database: ")
      /\ load_automated_payments_from_database caught
         = (Ok Blank, noticed "An error occurred while loading automated payments: ")
      /\ load_loans_from_database caught
         = (Ok Blank, noticed "An error occurred while loading loans: ")
      /\ empty (@Blank Transaction.t) = true
      /\ empty (@Blank AutomatedPayment.t) = true
      /\ empty (@Blank Loan.t) = true
      /\ load_budget_from_database caught
         = (Ok [], noticed "An error occurred while loading the budget: ")
      /\ load_savings_goal_from_database caught
         = (Ok 0%Q, noticed "An error occurred while loading the savings goal: ")
      /\ (forall df, save_to_database df caught
                     = (Ok tt, noticed "An error occurred while saving to the database: "))
      /\ (forall budget_data,
            save_budget_to_database budget_data caught
            = (Ok tt, noticed "An error occurred while saving the budget: "))
      /\ (forall goal,
            save_savings_goal_to_database goal caught
            = (Ok tt, noticed "An error occurred while saving the savings goal: "))
      /\ (forall df, save_automated_payment_to_database df caught
                     = (Ok tt, noticed "An error occurred while saving the automated payment: "))
      /\ (forall df, save_loan_to_database df caught
                     = (Ok tt, noticed "An error occurred while saving the loan: "))
      /\ (forall t1 t3 t4 t5,
            load_budget_from_database
              (mkWorld (mkDatabase t1 None t3 t4 t5) sess scr d (None :: fs))
            = (Ok [],
               mkWorld (mkDatabase t1 None t3 t4 t5) sess
                 (scr ++ [out_error [Str "An error occurred while loading the budget: ";
                                     Str "no such table: budget"]]) d fs)))
  /\ (contained load_budget_from_database
      /\ contained load_savings_goal_from_database
      /\ (forall budget_data, contained (save_budget_to_database budget_data))
      /\ (forall goal, contained (save_savings_goal_to_database goal))).
Proof.
  intros w raised left caught noticed. subst w raised left caught noticed.
  split; [repeat split; intros; reflexivity|].
  split; [reflexivity|].
  split.
  { repeat split; intros;
      (intros H;
       specialize (H (mkWorld db sess scr d [Some (in_pandas e)]) (pandas_DatabaseError e)
                     eq_refl);
       discriminate H). }
  split; [repeat split; intros; reflexivity|].
  split; [apply load_budget_contained|].
  split; [apply load_savings_goal_contained|].
  split; [apply save_budget_contained | apply save_savings_goal_contained].
Qed.

(** * Further properties of the script *)

(** ** Relations between the start and the end of a run *)

Section Following.
Variable R : World -> World -> Prop.
Hypothesis R_refl : forall w, R w w.
Hypothesis R_trans : forall w1 w2 w3, R w1 w2 -> R w2 w3 -> R w1 w3.

Lemma follows_ret {A : Type} (a : A) : follows R (ret a).
Proof. intros w. apply R_refl. Qed.

Lemma follows_raise {A : Type} (e : exn) : follows R (@raise A e).
Proof. intros w. apply R_refl. Qed.

Lemma follows_bind {A B : Type} (m : M A) (k : A -> M B) :
  follows R m -> (forall a, follows R (k a)) -> follows R (bind m k).
Proof.
  intros Hm Hk w. unfold bind. specialize (Hm w).
  destruct (m w) as [[a|e] w']; simpl in *; [|assumption].
  eapply R_trans; [eassumption | apply Hk].
Qed.

Lemma follows_try {A : Type} (body : M A) (handler : string -> M A) :
  follows R body -> (forall e, follows R (handler e)) ->
  follows R (try_except_sqlite3 body handler).
Proof.
  intros Hb Hh w. unfold try_except_sqlite3. specialize (Hb w).
  destruct (body w) as [[a|[n|k|n|msg|msg|]] w']; simpl in *; try assumption.
  eapply R_trans; [eassumption | apply Hh].
Qed.

Lemma follows_when (b : bool) (m : M unit) : follows R m -> follows R (when b m).
Proof. destruct b; [auto | intros _; apply follows_ret]. Qed.

Lemma follows_for {A : Type} (l : list A) (body : A -> M unit) :
  (forall x, follows R (body x)) -> follows R (for_ l body).
Proof.
  intros Hb. induction l as [|x l IH]; simpl.
  - apply follows_ret.
  - apply follows_bind; [apply Hb | intros _; exact IH].
Qed.

Lemma follows_resolve (name : string) : follows R (resolve name).
Proof. unfold resolve. destruct (mem name module_globals); intros w; apply R_refl. Qed.

(** The relations below do not look at the page or at the faults to come. *)
Hypothesis R_screen : forall w o, R w (set_screen o w).
Hypothesis R_faults : forall w f, R w (set_faults f w).

Lemma follows_emit (e : ui) : follows R (emit e).
Proof.
  unfold emit. apply follows_bind; [apply follows_resolve|].
  intros _ w. apply R_screen.
Qed.

Lemma follows_connect : follows R sqlite3_connect.
Proof.
  unfold sqlite3_connect. apply follows_bind; [apply follows_resolve|].
  intros _ [db s o t [|[[e|e]|] fs]]; simpl;
    first [apply R_refl | apply (R_faults (mkWorld db s o t _) fs)].
Qed.

Lemma follows_raw {A : Type} (f : World -> res A * World) :
  (forall w, R w (snd (f w))) -> follows R (resolve "st" ;; f).
Proof.
  intros Hf. apply follows_bind; [apply follows_resolve|].
  intros _ w. apply Hf.
Qed.

Lemma follows_get_store : follows R get_store.
Proof. intros w. apply R_refl. Qed.

Lemma follows_get_today : follows R get_today.
Proof. intros w. apply R_refl. Qed.

Lemma follows_modify (f : Database -> Database) :
  (forall w, R w (set_store (f (store w)) w)) -> follows R (modify_store f).
Proof. intros Hf w. apply Hf. Qed.

End Following.

(** ** The logs only grow *)

Lemma extends_refl {A : Type} (l : list A) : extends l l.
Proof. exists []. symmetry. apply app_nil_r. Qed.

Lemma extends_trans {A : Type} (l1 l2 l3 : list A) :
  extends l1 l2 -> extends l2 l3 -> extends l1 l3.
Proof.
  intros [a ->] [b ->]. exists (a ++ b). symmetry. apply app_assoc.
Qed.

Lemma logs_extend_refl (w : World) : logs_extend w w.
Proof. repeat split; apply extends_refl. Qed.

Lemma logs_extend_trans (w1 w2 w3 : World) :
  logs_extend w1 w2 -> logs_extend w2 w3 -> logs_extend w1 w3.
Proof.
  intros (A1 & B1 & C1) (A2 & B2 & C2).
  repeat split; eapply extends_trans; eassumption.
Qed.

Lemma logs_extend_store (w w' : World) : store w' = store w -> logs_extend w w'.
Proof. intros E. unfold logs_extend. rewrite E. repeat split; apply extends_refl. Qed.

(** Walks a page.  [facts] is the tuple of the facts on the relation
    (reflexive, transitive, blind to the page and to the faults); [raw]
    settles a read or write of the session state, [modify] a write to the
    database. *)
Ltac follow_page refl trans screen faults raw modify :=
  repeat
    lazymatch goal with
    | |- follows _ (ret _) => apply (follows_ret _ refl)
    | |- follows _ (raise _) => apply (follows_raise _ refl)
    | |- follows _ (resolve _) => apply (follows_resolve _ refl)
    | |- follows _ (emit _) => apply (follows_emit _ refl trans screen)
    | |- follows _ sqlite3_connect => apply (follows_connect _ refl trans faults)
    | |- follows _ get_store => apply (follows_get_store _ refl)
    | |- follows _ get_today => apply (follows_get_today _ refl)
    | |- follows _ (when false _) => apply (follows_ret _ refl)
    | |- follows _ (when _ _) => apply (follows_when _ refl)
    | |- follows _ (for_ _ _) => apply (follows_for _ refl trans); intro
    | |- follows _ (try_except_sqlite3 _ _) => apply (follows_try _ trans); [|intro]
    | |- follows _ (bind (resolve _) (fun _ => fun _ => _)) =>
        apply (follows_raw _ refl trans); solve [raw]
    | |- follows _ (bind _ _) => apply (follows_bind _ trans); [|intro]
    | |- follows _ (modify_store _) => apply follows_modify; solve [modify]
    | |- follows _ (if ?b then _ else _) => destruct b
    | |- follows _ (match ?x with _ => _ end) => destruct x
    | |- follows _ (let _ := _ in _) => cbv zeta
    end.

(** A step that leaves the database as it is. *)
Ltac same_store_step by_store :=
  intros [? [? ? ?] ? ? ?]; apply by_store; cbn;
  repeat match goal with
         | |- context [match ?x with _ => _ end] => destruct x; cbn
         end;
  reflexivity.

Ltac session_step :=
  intros [? [? ? ?] ? ? ?]; cbn;
  repeat match goal with
         | |- context [match ?x with _ => _ end] => destruct x; cbn
         end;
  reflexivity.

Ltac unfold_pages :=
  unfold show_dashboard, show_transactions, budget_management, savings_goals,
    automated_payments, loans, data_export, budget_alerts, expected_expenses,
    load_from_database, save_to_database, load_budget_from_database,
    save_budget_to_database, select_budget, load_savings_goal_from_database,
    save_savings_goal_to_database, load_automated_payments_from_database,
    save_automated_payment_to_database, load_loans_from_database,
    save_loan_to_database, pd_read_sql, to_sql, pd_DataFrame, select_Type, column,
    datetime_now_date, st_rerun, not_in_session, session_user,
    session_transactions, session_savings_goal, set_session_user,
    set_session_transactions, set_session_savings_goal,
    st_title, st_header, st_subheader, st_error, st_warning, st_info, st_success,
    st_metric, st_plotly_chart, st_dataframe, st_progress, st_write,
    st_download_button.

Ltac logs_modify :=
  intros [[? ? ? ? ?] ? ? ? ?]; unfold logs_extend; cbn;
  rewrite ?rows_of_create, ?rows_of_append;
  repeat split; first [apply extends_refl | eexists; reflexivity].

Lemma main_logs_extend repr_float (p : page) : follows logs_extend (main repr_float p).
Proof.
  unfold main. destruct p; unfold_pages;
    follow_page logs_extend_refl logs_extend_trans
      (fun w o => logs_extend_store w (set_screen o w) eq_refl)
      (fun w f => logs_extend_store w (set_faults f w) eq_refl)
      ltac:(same_store_step logs_extend_store) logs_modify.
Qed.

(** X1. No run of the script, whatever the page, the widgets and the faults
    of the database, removes or changes a row of the transactions, automated
    payments or loans tables: each table afterwards is the table before
    followed by the rows the run added. *)
Theorem logs_are_append_only repr_float (p : page) (d : date)
  (faults : list (option fault)) (w : World) :
  let w' := run repr_float p d faults w in
  (exists added,
     rows_of (transactions_tbl (store w'))
     = rows_of (transactions_tbl (store w)) ++ added)
  /\ (exists added,
        rows_of (automated_payments_tbl (store w'))
        = rows_of (automated_payments_tbl (store w)) ++ added)
  /\ (exists added,
        rows_of (loans_tbl (store w')) = rows_of (loans_tbl (store w)) ++ added).
Proof.
  exact (main_logs_extend repr_float p
           (mkWorld (store w) (session_state w) [] d faults)).
Qed.

(** ** Looking changes nothing *)

Lemma same_rows_refl (w : World) : same_rows w w.
Proof. repeat split. Qed.

Lemma same_rows_trans (w1 w2 w3 : World) :
  same_rows w1 w2 -> same_rows w2 w3 -> same_rows w1 w3.
Proof.
  intros (A1 & B1 & C1 & D1 & E1) (A2 & B2 & C2 & D2 & E2).
  repeat split; etransitivity; eassumption.
Qed.

Lemma same_rows_store (w w' : World) : store w' = store w -> same_rows w w'.
Proof. intros E. unfold same_rows. rewrite E. repeat split. Qed.

Ltac rows_modify :=
  intros [[? ? ? ? ?] ? ? ? ?]; unfold same_rows; cbn;
  rewrite ?rows_of_create; repeat split; reflexivity.

Lemma idle_main_same_rows repr_float (p : page) :
  idle p = true -> follows same_rows (main repr_float p).
Proof.
  intros Hidle. unfold main.
  destruct p as [|[? ? ? ? ? b]|[? b]|[? b]|[? ? ? ? b]|[? ? ? ? b]|[b]];
    cbn in Hidle; try (apply negb_true_iff in Hidle; subst b);
    unfold_pages; cbn [tf_add bf_save sf_update pf_add lf_add ef_export];
    follow_page same_rows_refl same_rows_trans
      (fun w o => same_rows_store w (set_screen o w) eq_refl)
      (fun w f => same_rows_store w (set_faults f w) eq_refl)
      ltac:(same_store_step same_rows_store) rows_modify.
Qed.

(** X2. A run in which no button is pressed leaves the rows of all five
    tables as they were, on every page and under every fault: the loaders
    may create a missing table, and nothing else is written.  (On the export
    page the button only builds the download.) *)
Theorem idle_run_changes_no_row repr_float (p : page) (d : date)
  (faults : list (option fault)) (w : World) :
  idle p = true ->
  let w' := run repr_float p d faults w in
  rows_of (transactions_tbl (store w')) = rows_of (transactions_tbl (store w))
  /\ rows_of (budget_tbl (store w')) = rows_of (budget_tbl (store w))
  /\ rows_of (savings_goal_tbl (store w')) = rows_of (savings_goal_tbl (store w))
  /\ rows_of (automated_payments_tbl (store w'))
     = rows_of (automated_payments_tbl (store w))
  /\ rows_of (loans_tbl (store w')) = rows_of (loans_tbl (store w)).
Proof.
  intros Hidle w'.
  destruct (idle_main_same_rows repr_float p Hidle
              (mkWorld (store w) (session_state w) [] d faults))
    as (A & B & C & D & E).
  repeat split; symmetry; assumption.
Qed.

Lemma idle_run_changes_no_row_witness :
  let p := SavingsGoals (mkSavingsForm (Some 500%Q) false) in
  let w := mkWorld example_database example_session [] (mkDate 2024 2 4) [] in
  idle p = true
  /\ rows_of (savings_goal_tbl (store (run example_repr_float p (mkDate 2024 2 5) [] w)))
     = [].
Proof.
  intros p w.
  assert (H : idle p = true) by reflexivity.
  split; [exact H|].
  destruct (idle_run_changes_no_row example_repr_float p (mkDate 2024 2 5) [] w H)
    as (_ & _ & E & _).
  rewrite E. reflexivity.
Defined.

(** ** The rows the forms write *)

Lemma st_number_input_min (min_value : Q) (typed : option Q) :
  (min_value <= st_number_input min_value min_value typed)%Q.
Proof.
  unfold st_number_input. destruct typed as [x|]; [|apply Qle_refl].
  destruct (Qle_bool min_value x) eqn:E; [|apply Qle_refl].
  apply Qle_bool_iff, E.
Qed.

Lemma st_number_input_bound (min_value value : Q) (typed : option Q) :
  (min_value <= value)%Q -> (min_value <= st_number_input min_value value typed)%Q.
Proof.
  intros Hv. unfold st_number_input. destruct typed as [x|]; [|exact Hv].
  destruct (Qle_bool min_value x) eqn:E; [|exact Hv].
  apply Qle_bool_iff, E.
Qed.

Lemma st_selectbox_In (options : list string) (picked : nat) :
  options <> [] -> In (st_selectbox options picked) options.
Proof.
  intros Hne. unfold st_selectbox.
  destruct (Nat.lt_ge_cases picked (List.length options)) as [Hlt|Hge].
  - apply nth_In, Hlt.
  - rewrite nth_overflow by exact Hge.
    destruct options; [congruence | left; reflexivity].
Qed.

Ltac keep_page modify :=
  repeat
    lazymatch goal with
    | |- preserves _ (ret _) => apply preserves_ret
    | |- preserves _ (raise _) => apply preserves_raise
    | |- preserves _ (resolve _) => apply preserves_resolve
    | |- preserves _ (emit _) => apply preserves_emit
    | |- preserves _ sqlite3_connect => apply preserves_connect
    | |- preserves _ get_store => apply preserves_same_store; reflexivity
    | |- preserves _ get_today => apply preserves_same_store; reflexivity
    | |- preserves _ (when _ _) => apply preserves_when
    | |- preserves _ (for_ _ _) => apply preserves_for; intro
    | |- preserves _ (try_except_sqlite3 _ _) => apply preserves_try; [|intro]
    | |- preserves _ (bind (resolve _) (fun _ => fun _ => _)) =>
        apply preserves_session; solve [session_step]
    | |- preserves _ (bind _ _) => apply preserves_bind; [|intro]
    | |- preserves _ (modify_store _) => apply preserves_modify; solve [modify]
    | |- preserves _ (if ?b then _ else _) => destruct b
    | |- preserves _ (match ?x with _ => _ end) => destruct x
    | |- preserves _ (let _ := _ in _) => cbv zeta
    end.

Ltac member := cbn; repeat first [left; reflexivity | right].

Ltac valid_row :=
  first
    [ split; [apply st_number_input_min|];
      split; [first [apply st_selectbox_In; discriminate | member]|];
      first [apply st_selectbox_In; discriminate | member]
    | split; [apply st_number_input_min|];
      first [apply st_selectbox_In; discriminate | member] ].

Ltac well_formed_modify :=
  intros [? ? ? ? ?] (Ht & Hp & Hl); unfold well_formed in *; cbn -[In st_selectbox] in *;
  rewrite ?rows_of_create, ?rows_of_append;
  repeat split; try assumption;
  (apply Forall_app; split; [assumption | constructor; [valid_row | constructor]]).

Lemma main_keeps_well_formed repr_float (p : page) :
  preserves well_formed (main repr_float p).
Proof.
  unfold main. destruct p; unfold_pages; keep_page well_formed_modify.
Qed.

(** X3. In every state the application reaches from an empty database, every
    stored transaction has an amount of at least 0.01, a Type that is Income
    or Expense and a Category of the transaction form; every automated
    payment has an amount of at least 0.01 and one of the three frequencies;
    every loan has an amount of at least 0.01 and is Given or Taken.  In
    particular all amounts are positive. *)
Theorem reachable_rows_well_formed repr_float (w : World) :
  reachable repr_float w ->
  Forall valid_transaction (rows_of (transactions_tbl (store w)))
  /\ Forall valid_payment (rows_of (automated_payments_tbl (store w)))
  /\ Forall valid_loan (rows_of (loans_tbl (store w)))
  /\ Forall (fun t => (0 < Transaction.Amount t)%Q) (rows_of (transactions_tbl (store w))).
Proof.
  intros Hw.
  assert (H : well_formed (store w)).
  { induction Hw as [|p d faults w _ IH|w _ IH].
    - repeat split; constructor.
    - unfold run. apply main_keeps_well_formed. exact IH.
    - exact IH. }
  destruct H as (Ht & Hp & Hl). repeat split; try assumption.
  eapply Forall_impl; [|exact Ht]. intros t (Ha & _).
  eapply Qlt_le_trans; [|exact Ha]. reflexivity.
Qed.

Lemma reachable_rows_well_formed_witness :
  let form := mkLoanForm "Car" (Some (-5)%Q) 0 None true in
  let w := run example_repr_float (Loans form) (mkDate 2024 2 4) [] fresh in
  reachable example_repr_float w
  /\ rows_of (transactions_tbl (store w))
     = [Transaction.mk (mkDate 2024 2 4) "Other" (1 # 100) "Loan Given: Car" "Expense"
          "default_user"]
  /\ Forall (fun t => (0 < Transaction.Amount t)%Q) (rows_of (transactions_tbl (store w))).
Proof.
  intros form w.
  assert (H : reachable example_repr_float w) by (apply reachable_run, reachable_fresh).
  split; [exact H|]. split; [reflexivity|].
  exact (proj2 (proj2 (proj2 (reachable_rows_well_formed example_repr_float w H)))).
Defined.

(** ** Upserts and lookups *)

Section UpsertLookup.
Context {K : Type} `{KeyLaws K} {V : Type}.

Lemma lookup_app (c : K) (l1 l2 : list (K * V)) :
  lookup c (l1 ++ l2) = match lookup c l1 with
                        | Some v => Some v
                        | None => lookup c l2
                        end.
Proof.
  induction l1 as [|[k v] l1 IH]; simpl; [reflexivity|].
  destruct (keqb k c); [reflexivity | exact IH].
Qed.

Lemma lookup_filter_other (c k : K) (l : list (K * V)) :
  c <> k -> lookup c (filter (fun r => negb (keqb (fst r) k)) l) = lookup c l.
Proof.
  intros Hck. induction l as [|[x v] l IH]; simpl; [reflexivity|].
  destruct (keqb x k) eqn:Exk; simpl.
  - apply keqb_eq in Exk; subst x. rewrite (keqb_neq k c) by congruence. exact IH.
  - destruct (keqb x c); [reflexivity | exact IH].
Qed.

Lemma lookup_filter_same (k : K) (l : list (K * V)) :
  lookup k (filter (fun r => negb (keqb (fst r) k)) l) = None.
Proof.
  induction l as [|[x v] l IH]; simpl; [reflexivity|].
  destruct (keqb x k) eqn:Exk; simpl; [exact IH|]. rewrite Exk. exact IH.
Qed.

(** Reading a row back after [INSERT OR REPLACE]: the key that was written
    has the new value, every other key has what it had. *)
Lemma lookup_insert_or_replace (c k : K) (v : V) (l : list (K * V)) :
  lookup c (insert_or_replace k v l) = if keqb k c then Some v else lookup c l.
Proof.
  unfold insert_or_replace. rewrite lookup_app.
  destruct (keqb k c) eqn:E.
  - apply keqb_eq in E; subst c. rewrite lookup_filter_same. simpl.
    rewrite keqb_refl. reflexivity.
  - assert (Hck : c <> k) by (intros ->; rewrite keqb_refl in E; discriminate).
    rewrite (lookup_filter_other c k l Hck).
    destruct (lookup c l); [reflexivity|]. simpl. rewrite E. reflexivity.
Qed.

(** The dictionary of a table whose keys are distinct reads like the table. *)
Lemma dict_of_rows_lookup (c : K) (rows d : list (K * V)) :
  NoDup (map fst rows) ->
  lookup c (dict_of_rows rows d) = match lookup c rows with
                                   | Some v => Some v
                                   | None => lookup c d
                                   end.
Proof.
  revert d. induction rows as [|[k v] rows IH]; intros d Hnd; [reflexivity|].
  inversion Hnd as [|? ? Hk Hrows]; subst.
  change (dict_of_rows ((k, v) :: rows) d) with (dict_of_rows rows (dict_set k v d)).
  rewrite (IH _ Hrows), lookup_dict_set. simpl.
  destruct (keqb k c) eqn:E; [|reflexivity].
  apply keqb_eq in E; subst c.
  destruct (lookup k rows) eqn:El; [|reflexivity].
  exfalso. apply Hk. clear - El H0.
  induction rows as [|[x y] rows IH]; simpl in *; [discriminate|].
  destruct (keqb x k) eqn:E; [left; apply keqb_eq, E | right; apply IH, El].
Qed.

End UpsertLookup.

(** ** The savings goal *)

(** X4. The savings goal is kept per user and read back as saved: after a
    save that meets no database error, the table holds one row for the user
    of the session, the loader returns exactly the saved goal, and the goals
    of other users are what they were; a user without a row reads 0.  The
    Update button of the savings page stores the goal of the form in the
    session and in the table. *)
Theorem savings_goal_round_trip db u tx g scr d faults (goal : Q) :
  connects 0 faults -> connects 1 faults ->
  let w := mkWorld db (mkSession (Some u) tx g) scr d faults in
  (exists w1 w2,
     save_savings_goal_to_database goal w = (Ok tt, w1)
     /\ load_savings_goal_from_database w1 = (Ok goal, w2)
     /\ filter (fun row => String.eqb (fst row) u) (rows_of (savings_goal_tbl (store w1)))
        = [(u, goal)]
     /\ (forall other,
           other <> u ->
           lookup other (rows_of (savings_goal_tbl (store w1)))
           = lookup other (rows_of (savings_goal_tbl db))))
  /\ (lookup u (rows_of (savings_goal_tbl db)) = None ->
      fst (load_savings_goal_from_database w) = Ok 0%Q)
  /\ (forall rows current typed,
        let new_goal := st_number_input 0 current typed in
        exists w',
          savings_goals (mkSavingsForm typed true)
            (mkWorld db (mkSession (Some u) (Some (Table rows)) (Some current)) scr d faults)
          = (Ok tt, w')
          /\ savings_goal (session_state w') = Some new_goal
          /\ lookup u (rows_of (savings_goal_tbl (store w'))) = Some new_goal).
Proof.
  intros H0 H1 w. subst w. unfold connects in H0, H1.
  destruct db as [t1 t2 t3 t4 t5]. cbn [savings_goal_tbl].
  split; [|split].
  - destruct faults as [|[e|] [|[e'|] fs]]; try discriminate;
      (eexists _, _; split; [reflexivity|]); cbn; rewrite rows_of_create;
      rewrite (lookup_insert_or_replace u u goal), (keqb_refl u);
      (split; [reflexivity|]);
      (split; [exact (@insert_or_replace_one_row string _ _ Q u goal (rows_of t3))|]);
      intros other Hother; rewrite lookup_insert_or_replace;
      rewrite (keqb_neq u other) by congruence; reflexivity.
  - intros Hnone.
    destruct faults as [|[e|] fs]; try discriminate; cbn;
      rewrite rows_of_create, Hnone; reflexivity.
  - intros rows current typed. unfold savings_goals.
    destruct faults as [|[e|] [|[e'|] fs]], t4 as [pay|]; try discriminate; cbn;
      rewrite ?expected_expenses_Table, ?expected_expenses_Blank; cbn;
      rewrite rows_of_create;
      (eexists; split; [reflexivity|]; split; [reflexivity|]); cbn;
      rewrite (lookup_insert_or_replace u u), (keqb_refl u); reflexivity.
Qed.

Lemma savings_goal_round_trip_witness :
  let w := mkWorld example_database example_session [] (mkDate 2024 2 4) [] in
  connects 0 [] /\ connects 1 []
  /\ lookup "default_user" (rows_of (savings_goal_tbl example_database)) = None
  /\ fst (load_savings_goal_from_database w) = Ok 0%Q
  /\ fst (load_savings_goal_from_database
            (snd (save_savings_goal_to_database 750 w))) = Ok 750%Q.
Proof.
  intros w.
  assert (H0 : connects 0 []) by reflexivity.
  assert (H1 : connects 1 []) by reflexivity.
  assert (Hn : lookup "default_user" (rows_of (savings_goal_tbl example_database)) = None)
    by reflexivity.
  destruct (savings_goal_round_trip example_database "default_user"
              (Some (Table example_ledger)) (Some 0%Q) [] (mkDate 2024 2 4) [] 750%Q H0 H1)
    as ((w1 & w2 & Hsave & Hload & _) & Hzero & _).
  split; [exact H0|]. split; [exact H1|]. split; [exact Hn|].
  split; [exact (Hzero Hn)|].
  unfold w, example_session. rewrite Hsave. cbn [snd]. rewrite Hload. reflexivity.
Defined.

Ltac goal_unique_modify :=
  intros [? ? ? ? ?] Hdb; unfold goal_unique in *; cbn in *;
  rewrite ?rows_of_create;
  first [assumption | apply insert_or_replace_NoDup; assumption].

Lemma main_keeps_goal_unique repr_float (p : page) :
  preserves goal_unique (main repr_float p).
Proof.
  unfold main. destruct p; unfold_pages; keep_page goal_unique_modify.
Qed.

(** X5. In every state the application reaches from an empty database the
    savings goal table has at most one row per user: saving a goal replaces
    the row of the user. *)
Theorem reachable_goal_unique repr_float (w : World) :
  reachable repr_float w ->
  NoDup (map fst (rows_of (savings_goal_tbl (store w)))).
Proof.
  induction 1 as [|p d faults w _ IH|w _ IH].
  - constructor.
  - unfold run. apply main_keeps_goal_unique. exact IH.
  - exact IH.
Qed.

Lemma reachable_goal_unique_witness :
  let save g := SavingsGoals (mkSavingsForm (Some g) true) in
  let w := run example_repr_float (save 900%Q) (mkDate 2024 2 5) []
             (run example_repr_float (save 500%Q) (mkDate 2024 2 4) [] fresh) in
  reachable example_repr_float w
  /\ rows_of (savings_goal_tbl (store w)) = [("default_user", 900%Q)]
  /\ NoDup (map fst (rows_of (savings_goal_tbl (store w)))).
Proof.
  intros save w.
  assert (H : reachable example_repr_float w)
    by (apply reachable_run, reachable_run, reachable_fresh).
  split; [exact H|]. split; [reflexivity|].
  exact (reachable_goal_unique example_repr_float w H).
Defined.

(** ** Saving the budget from its page *)

Section UpsertFold.
Context {K : Type} `{KeyLaws K} {V : Type}.

Lemma not_key_lookup_None (c : K) (l : list (K * V)) :
  ~ In c (map fst l) -> lookup c l = None.
Proof.
  induction l as [|[k v] l IH]; simpl; intros Hc; [reflexivity|].
  rewrite keqb_neq by tauto. apply IH. tauto.
Qed.

Lemma key_lookup_Some (c : K) (l : list (K * V)) :
  In c (map fst l) -> exists v, lookup c l = Some v.
Proof.
  induction l as [|[k v] l IH]; simpl; [tauto|].
  intros [->|Hc].
  - rewrite keqb_refl. eauto.
  - destruct (keqb k c); eauto.
Qed.

(** A run of [INSERT OR REPLACE] over items with distinct keys: an item's key
    reads as the item, any other key as before. *)
Lemma lookup_fold_upsert (c : K) (items l : list (K * V)) :
  NoDup (map fst items) ->
  lookup c (fold_left (fun l item => insert_or_replace (fst item) (snd item) l) items l)
  = match lookup c items with
    | Some v => Some v
    | None => lookup c l
    end.
Proof.
  revert l. induction items as [|[k v] items IH]; intros l Hnd; [reflexivity|].
  inversion Hnd as [|? ? Hk Hitems]; subst. simpl.
  rewrite (IH _ Hitems), lookup_insert_or_replace.
  destruct (keqb k c) eqn:E; [|reflexivity].
  apply keqb_eq in E; subst c. rewrite (not_key_lookup_None k items Hk). reflexivity.
Qed.

Lemma fold_upsert_NoDup (items l : list (K * V)) :
  NoDup (map fst l) ->
  NoDup (map fst (fold_left (fun l item => insert_or_replace (fst item) (snd item) l)
                    items l)).
Proof.
  revert l. induction items as [|[k v] items IH]; intros l Hl; [exact Hl|].
  simpl. apply IH, insert_or_replace_NoDup, Hl.
Qed.

End UpsertFold.

Lemma fold_upsert_rows (items : list (string * Q)) (db : Database) :
  rows_of (budget_tbl
             (fold_left (fun db item =>
                set_budget_tbl
                  (Some (insert_or_replace (fst item) (snd item) (rows_of (budget_tbl db))))
                  db) items db))
  = fold_left (fun l item => insert_or_replace (fst item) (snd item) l) items
      (rows_of (budget_tbl db)).
Proof.
  revert db. induction items as [|item items IH]; intros db; [reflexivity|].
  simpl. rewrite IH. reflexivity.
Qed.

Lemma new_budget_data_tabulate (budget_data : list (string * Q)) (form : BudgetForm) :
  new_budget_data budget_data form
  = map (fun c : string =>
           (c, st_number_input 0 (get c 0%Q budget_data) (bf_typed form c)))
        categories.
Proof. reflexivity. Qed.

Lemma categories_NoDup : NoDup categories.
Proof.
  unfold categories.
  repeat (constructor; [cbn; intuition discriminate|]). constructor.
Qed.

Lemma new_budget_data_keys (budget_data : list (string * Q)) (form : BudgetForm) :
  map fst (new_budget_data budget_data form) = categories.
Proof. rewrite new_budget_data_tabulate, map_map. apply map_id. Qed.

(** The table the budget page leaves behind when Save is pressed and the
    database raises no error. *)
Lemma budget_management_saved db u tx g scr d faults typed :
  connects 0 faults -> connects 1 faults ->
  rows_of (budget_tbl
             (store (snd (budget_management (mkBudgetForm typed true)
                            (mkWorld db (mkSession u tx g) scr d faults)))))
  = fold_left (fun l item => insert_or_replace (fst item) (snd item) l)
      (new_budget_data (dict_of_rows (rows_of (budget_tbl db)) [])
         (mkBudgetForm typed true))
      (rows_of (budget_tbl db)).
Proof.
  unfold connects. intros H0 H1.
  destruct db as [t1 t2 t3 t4 t5]. unfold budget_management.
  destruct faults as [|[e|] [|[e'|] fs]], t2 as [budget|], tx as [[|rows]|];
    try discriminate; cbn;
    rewrite ?save_budget_to_database_connected, ?save_budget_to_database_unfaulted;
    cbn; rewrite fold_upsert_rows; reflexivity.
Qed.

(** X6. Save on the budget page, the database raising no error and the
    table having one row per category: afterwards each of the eight budget
    categories has the amount the form showed, every other row is untouched,
    and the next visit of the page, with nothing typed, shows exactly the
    same amounts again. *)
Theorem budget_save_round_trip db u tx g scr d faults typed :
  NoDup (map fst (rows_of (budget_tbl db))) ->
  connects 0 faults -> connects 1 faults ->
  let form := mkBudgetForm typed true in
  let shown := new_budget_data (dict_of_rows (rows_of (budget_tbl db)) []) form in
  let w' := snd (budget_management form (mkWorld db (mkSession u tx g) scr d faults)) in
  (forall c, In c categories ->
             lookup c (rows_of (budget_tbl (store w'))) = Some (get c 0%Q shown))
  /\ (forall c, ~ In c categories ->
                lookup c (rows_of (budget_tbl (store w')))
                = lookup c (rows_of (budget_tbl db)))
  /\ (forall s o t faults' again,
        connects 0 faults' ->
        exists budget_data w'',
          load_budget_from_database (mkWorld (store w') s o t faults')
          = (Ok budget_data, w'')
          /\ new_budget_data budget_data (mkBudgetForm (fun _ => None) again) = shown).
Proof.
  intros Hnd H0 H1 form shown w'.
  assert (Hrows : rows_of (budget_tbl (store w'))
                  = fold_left (fun l item => insert_or_replace (fst item) (snd item) l)
                      shown (rows_of (budget_tbl db)))
    by (apply budget_management_saved; assumption).
  assert (Hkeys : map fst shown = categories) by apply new_budget_data_keys.
  assert (Hshown : NoDup (map fst shown)) by (rewrite Hkeys; apply categories_NoDup).
  assert (Hin : forall c, In c categories ->
                  lookup c (rows_of (budget_tbl (store w'))) = Some (get c 0%Q shown)).
  { intros c Hc. rewrite Hrows, (lookup_fold_upsert c shown _ Hshown).
    rewrite <- Hkeys in Hc. destruct (key_lookup_Some c shown Hc) as [v Hv].
    unfold get. rewrite Hv. reflexivity. }
  split; [exact Hin|]. split.
  - intros c Hc. rewrite Hrows, (lookup_fold_upsert c shown _ Hshown).
    rewrite not_key_lookup_None; [reflexivity|]. rewrite Hkeys. exact Hc.
  - intros s o t faults' again Hf. unfold connects in Hf.
    assert (HO : lookup "Other" (rows_of (budget_tbl (store w')))
                 = Some (get "Other" 0%Q shown))
      by (apply Hin; cbn; tauto).
    clearbody w'.
    destruct (store w') as [t1 [rows|] t3 t4 t5]; cbn [budget_tbl rows_of] in *;
      [|discriminate HO].
    assert (Hload : forall c, In c categories ->
                      get c 0%Q (dict_of_rows rows []) = get c 0%Q shown).
    { intros c Hc. unfold get at 1. rewrite (dict_of_rows_lookup c rows []).
      - rewrite (Hin c Hc). reflexivity.
      - rewrite Hrows. apply fold_upsert_NoDup, Hnd. }
    assert (Hvalue : forall c, In c categories ->
                       get c 0%Q shown
                       = st_number_input 0
                           (get c 0%Q (dict_of_rows (rows_of (budget_tbl db)) []))
                           (typed c)).
    { intros c Hc. unfold shown. rewrite new_budget_data_tabulate. unfold get at 1.
      rewrite (lookup_tabulate
                 (fun c : string =>
                    st_number_input 0
                      (get c 0%Q (dict_of_rows (rows_of (budget_tbl db)) []))
                      (bf_typed form c))).
      rewrite (proj2 (mem_In c categories) Hc). reflexivity. }
    exists (dict_of_rows rows []).
    assert (Hform : new_budget_data (dict_of_rows rows [])
                      (mkBudgetForm (fun _ => None) again) = shown).
    { unfold shown at 1. rewrite !new_budget_data_tabulate.
      apply map_ext_in. intros c Hc. f_equal.
      change (st_number_input 0 (get c 0%Q (dict_of_rows rows [])) None)
        with (get c 0%Q (dict_of_rows rows [])).
      rewrite (Hload c Hc). apply Hvalue, Hc. }
    destruct faults' as [|[e|] fs]; try discriminate;
      (eexists; split; [reflexivity | exact Hform]).
Qed.

Lemma budget_save_round_trip_witness :
  let typed := fun c => if String.eqb c "Food & Groceries" then Some 200%Q else None in
  let w := mkWorld example_database example_session [] (mkDate 2024 2 4) [] in
  let w' := snd (budget_management (mkBudgetForm typed true) w) in
  NoDup (map fst (rows_of (budget_tbl example_database)))
  /\ connects 0 [] /\ connects 1 []
  /\ In "Other" categories /\ In "Food & Groceries" categories
  /\ lookup "Other" (rows_of (budget_tbl (store w'))) = Some 5%Q
  /\ lookup "Food & Groceries" (rows_of (budget_tbl (store w'))) = Some 200%Q.
Proof.
  intros typed w w'.
  assert (Hnd : NoDup (map fst (rows_of (budget_tbl example_database))))
    by (repeat constructor; intros []).
  assert (H0 : connects 0 []) by reflexivity.
  assert (H1 : connects 1 []) by reflexivity.
  assert (Ho : In "Other" categories) by (cbn; tauto).
  assert (Hf : In "Food & Groceries" categories) by (cbn; tauto).
  destruct (budget_save_round_trip example_database (Some "default_user")
              (Some (Table example_ledger)) (Some 0%Q) [] (mkDate 2024 2 4) [] typed
              Hnd H0 H1) as (Hin & _).
  repeat (split; [assumption|]).
  split; [exact (Hin "Other" Ho) | exact (Hin "Food & Groceries" Hf)].
Defined.

(** ** Sorted output *)

Section SortBy.
Context {A : Type} (leb : A -> A -> bool).
Hypothesis leb_total : forall a b, leb a b = true \/ leb b a = true.

Lemma insert_by_HdRel (x y : A) (l : list A) :
  HdRel (fun a b => leb a b = true) y l -> leb y x = true ->
  HdRel (fun a b => leb a b = true) y (insert_by leb x l).
Proof.
  intros Hl Hyx. destruct l as [|z l]; simpl; [constructor; exact Hyx|].
  destruct (leb x z); constructor; [exact Hyx|].
  inversion Hl; assumption.
Qed.

Lemma insert_by_Sorted (x : A) (l : list A) :
  Sorted (fun a b => leb a b = true) l -> Sorted (fun a b => leb a b = true) (insert_by leb x l).
Proof.
  induction l as [|y l IH]; simpl; intros Hl.
  - repeat constructor.
  - inversion Hl as [|? ? Hs Hh]; subst.
    destruct (leb x y) eqn:E.
    + constructor; [exact Hl | constructor; exact E].
    + constructor; [apply IH, Hs|].
      apply insert_by_HdRel; [exact Hh|].
      destruct (leb_total x y) as [H|H]; [congruence | exact H].
Qed.

Lemma sort_by_Sorted (l : list A) : Sorted (fun a b => leb a b = true) (sort_by leb l).
Proof.
  induction l as [|x l IH]; [constructor|].
  change (sort_by leb (x :: l)) with (insert_by leb x (sort_by leb l)).
  apply insert_by_Sorted, IH.
Qed.

End SortBy.

(** X8. The months of the monthly summary come in ascending order of their
    text (YYYY-MM), each before a different later one. *)
Theorem monthly_summary_ascending (rows : list Transaction.t) :
  Sorted (fun m m' => String.leb m m' = true) (map Month (monthly_summary rows))
  /\ Sorted (fun m m' => String.leb m m' = true /\ m <> m')
            (map Month (monthly_summary rows)).
Proof.
  assert (Hs : Sorted (fun m m' => String.leb m m' = true)
                 (map Month (monthly_summary rows))).
  { rewrite monthly_summary_months. apply sort_by_Sorted, String.leb_total. }
  split; [exact Hs|].
  assert (Hnd : NoDup (map Month (monthly_summary rows)))
    by (rewrite monthly_summary_months; apply sorted_unique_NoDup).
  induction Hs as [|m l Hl IH Hh]; [constructor|].
  inversion Hnd as [|? ? Hm Hnd']; subst.
  constructor; [apply IH, Hnd'|].
  destruct Hh as [|m' l' Hmm']; constructor.
  split; [exact Hmm'|]. intros ->. apply Hm. left. reflexivity.
Qed.

(** X9. The transactions page, when nothing is added: a ledger with rows is
    shown as a table that holds every transaction exactly as often as the
    ledger does, latest date first (by the ISO text of the dates); an empty
    ledger, and the column-less frame of a failed load, give the notice that
    no transactions are available.  The database is not touched. *)
Theorem transaction_history_shown db u g scr d faults fd fc fa fdesc fty :
  let form := mkTransactionForm fd fc fa fdesc fty false in
  let world tx := mkWorld db (mkSession u (Some tx) g) scr d faults in
  let top := [ out_header "Transactions"; out_subheader "Add New Transaction";
               out_subheader "Transaction History" ] in
  (forall rows,
     rows <> [] ->
     exists shown,
       show_transactions form (world (Table rows))
       = (Ok tt,
          mkWorld db (mkSession u (Some (Table rows)) g)
            (scr ++ top ++ [out_dataframe (frame_transactions (Table shown))]) d faults)
       /\ Permutation shown rows
       /\ Sorted (fun a b => String.leb (isoformat (Transaction.Date b))
                                        (isoformat (Transaction.Date a)) = true) shown)
  /\ (forall tx,
        tx = Table [] \/ tx = Blank ->
        show_transactions form (world tx)
        = (Ok tt,
           mkWorld db (mkSession u (Some tx) g)
             (scr ++ top ++ [out_info [Str "No transactions available."]]) d faults)).
Proof.
  intros form world top. subst form world top. split.
  - intros rows Hne. exists (sort_values_Date_desc rows). split; [|split].
    + unfold show_transactions. cbn. rewrite (empty_Table rows Hne). cbn.
      rewrite <- !app_assoc. reflexivity.
    + apply sort_by_perm.
    + unfold sort_values_Date_desc.
      apply (sort_by_Sorted
               (fun a b => String.leb (isoformat (Transaction.Date b))
                                      (isoformat (Transaction.Date a)))).
      intros a b. apply String.leb_total.
  - intros tx [->| ->]; unfold show_transactions; cbn; unfold empty; cbn;
      rewrite <- !app_assoc; reflexivity.
Qed.

Lemma transaction_history_shown_witness :
  let form := mkTransactionForm None 0 None "" 0 false in
  example_ledger <> []
  /\ exists before shown,
       screen (snd (show_transactions form
                      (mkWorld example_database example_session [] (mkDate 2024 2 4) [])))
       = before ++ [out_dataframe (frame_transactions (Table shown))]
       /\ Permutation shown example_ledger.
Proof.
  intros form.
  assert (H : example_ledger <> []) by discriminate.
  split; [exact H|].
  destruct (transaction_history_shown example_database (Some "default_user") (Some 0%Q) []
              (mkDate 2024 2 4) [] None 0%nat None "" 0%nat) as (Hrows & _).
  destruct (Hrows example_ledger H) as (shown & Hrun & Hperm & _).
  eexists _, shown. subst form. unfold example_session. rewrite Hrun. cbn [snd screen].
  split; [rewrite app_nil_l; reflexivity | exact Hperm].
Defined.

(** ** The session between runs *)

Lemma same_session_refl (w : World) : same_session w w.
Proof. reflexivity. Qed.

Lemma same_session_trans (w1 w2 w3 : World) :
  same_session w1 w2 -> same_session w2 w3 -> same_session w1 w3.
Proof. unfold same_session. congruence. Qed.

Ltac session_modify := intros [? ? ? ? ?]; reflexivity.

Ltac session_read :=
  intros [? [? ? ?] ? ? ?]; unfold same_session; cbn;
  repeat match goal with
         | |- context [match ?x with _ => _ end] => destruct x; cbn
         end;
  reflexivity.

Lemma idle_page_same_session repr_float (p : page) :
  idle p = true ->
  follows same_session
    (match p with
     | Dashboard => show_dashboard
     | Transactions form => show_transactions form
     | BudgetManagement form => budget_management form
     | SavingsGoals form => savings_goals form
     | AutomatedPayments form => automated_payments form
     | Loans form => loans form
     | DataExport form => data_export repr_float form
     end).
Proof.
  intros Hidle.
  destruct p as [|[? ? ? ? ? b]|[? b]|[? b]|[? ? ? ? b]|[? ? ? ? b]|[b]];
    cbn in Hidle; try (apply negb_true_iff in Hidle; subst b);
    unfold_pages; cbn [tf_add bf_save sf_update pf_add lf_add ef_export];
    follow_page same_session_refl same_session_trans
      (fun (w : World) (o : list ui) => eq_refl (session_state w))
      (fun (w : World) (f : list (option fault)) => eq_refl (session_state w))
      session_read session_modify.
Qed.

(** X10. The ledger of the session is a snapshot: a run in which no button is
    pressed, in a session that has its user, ledger and goal, leaves the
    session state exactly as it was, whatever the database holds by then and
    whatever the page. *)
Theorem idle_run_keeps_session repr_float (p : page) (d : date)
  (faults : list (option fault)) db u tx g scr d0 faults0 :
  idle p = true ->
  let w := mkWorld db (mkSession (Some u) (Some tx) (Some g)) scr d0 faults0 in
  session_state (run repr_float p d faults w) = session_state w.
Proof.
  intros Hidle w. subst w. unfold run, main. cbn.
  exact (idle_page_same_session repr_float p Hidle _).
Qed.

Lemma idle_run_keeps_session_witness :
  let w := mkWorld example_database
             (mkSession (Some "default_user") (Some (Table [])) (Some 0%Q))
             [] (mkDate 2024 2 4) [] in
  idle Dashboard = true
  /\ rows_of (transactions_tbl (store w)) = example_ledger
  /\ transactions
       (session_state (run example_repr_float Dashboard (mkDate 2024 2 5) [] w))
     = Some (Table []).
Proof.
  intros w.
  assert (H : idle Dashboard = true) by reflexivity.
  split; [exact H|]. split; [reflexivity|].
  unfold w.
  rewrite (idle_run_keeps_session example_repr_float Dashboard (mkDate 2024 2 5) []
             example_database "default_user" (Table []) 0%Q [] (mkDate 2024 2 4) [] H).
  reflexivity.
Defined.

(** ** After a failed first load *)

(** X11. When [sqlite3.connect] raises at the first load of a new session,
    the session keeps the column-less frame as its ledger.  On it the dashboard
    and the transactions page end normally, with the notices for an empty
    ledger, while the savings page and the budget page raise KeyError for
    the missing Type column, whatever their forms and whatever the database
    does afterwards. *)
Theorem failed_first_load repr_float db scr d e fs :
  let w := mkWorld db (mkSession None None None) scr d (Some (at_connect e) :: fs) in
  let notice :=
    out_error [Str "An error occurred while loading from the database: "; Str e] in
  (exists out w',
     main repr_float Dashboard w = (Ok tt, w')
     /\ transactions (session_state w') = Some Blank
     /\ screen w' = scr ++ out
     /\ In notice out
     /\ In (out_warning [Str "No transactions available. Please add transactions or upload a CSV file."]) out)
  /\ (forall fd fc fa fdesc fty,
        exists out w',
          main repr_float (Transactions (mkTransactionForm fd fc fa fdesc fty false)) w
          = (Ok tt, w')
          /\ screen w' = scr ++ out
          /\ In (out_info [Str "No transactions available."]) out)
  /\ (forall form,
        fst (main repr_float (SavingsGoals form) w) = Raise (KeyError "Type"))
  /\ (forall form,
        fst (main repr_float (BudgetManagement form) w) = Raise (KeyError "Type")).
Proof.
  intros w notice. subst w notice.
  destruct db as [t1 t2 t3 t4 t5].
  split; [|split; [|split]].
  - unfold main, show_dashboard.
    destruct fs as [|[[e1|e1]|] fs]; cbn; unfold empty; cbn;
      (eexists _, _; split; [reflexivity|]; split; [reflexivity|]);
      cbn; rewrite <- ?app_assoc; (split; [reflexivity|]);
      split; cbn; tauto.
  - intros fd fc fa fdesc fty. unfold main, show_transactions.
    destruct fs as [|[[e1|e1]|] fs]; cbn; unfold empty; cbn;
      (eexists _, _; split; [reflexivity|]);
      cbn; rewrite <- ?app_assoc; (split; [reflexivity|]); cbn; tauto.
  - intros [typed upd]. unfold main, savings_goals.
    destruct upd, fs as [|[[e1|e1]|] [|[[e2|e2]|] fs]]; reflexivity.
  - intros form. unfold main.
    destruct fs as [|[[e1|e1]|] fs]; cbn -[budget_management];
      match goal with
      | |- fst (budget_management ?f ?W) = _ => apply (budget_management_Blank W f)
      end; reflexivity.
Qed.

(** ** Writes that fail *)

Ltac shown_after_run :=
  (eexists _, _; split; [reflexivity|]); cbn;
  rewrite ?rows_of_create, ?rows_of_append, <- ?app_assoc;
  repeat (split; [first [reflexivity | cbn; tauto]|]);
  first [reflexivity | cbn; tauto].

(** X12. Each form reports success without looking at its write.  When
    [sqlite3.connect] raises at the write of an added transaction, automated
    payment or loan, or of an updated savings goal, the rows of the table
    are what they were and the page shows the error notice and then its
    usual success message all the same (for a loan: one of type Taken; pandas
    meeting no error at the load that follows); the savings page has by then
    put the new goal in the session, which no longer agrees with the table.
    When it is pandas that meets the error, in [df.to_sql], nothing is
    written either, and the page stops with the uncaught
    [pandas.errors.DatabaseError]: it shows neither a notice nor the success
    message. *)
Theorem failed_write_reports_success db u tx g scr d e fs :
  let session := mkSession (Some u) (Some tx) (Some g) in
  let w := mkWorld db session scr d (Some (at_connect e) :: fs) in
  let w_pandas := mkWorld db session scr d (Some (in_pandas e) :: fs) in
  (forall fd fc fa fdesc fty,
     pandas_ok 0 fs ->
     exists out w',
       show_transactions (mkTransactionForm fd fc fa fdesc fty true) w
       = (Raise RerunException, w')
       /\ rows_of (transactions_tbl (store w')) = rows_of (transactions_tbl db)
       /\ screen w' = scr ++ out
       /\ In (out_error [Str "An error occurred while saving to the database: "; Str e]) out
       /\ In (out_success [Str "Transaction added successfully!"]) out)
  /\ (forall pn pa pfreq pnext,
        pandas_ok 0 fs ->
        exists out w',
          automated_payments (mkPaymentForm pn pa pfreq pnext true) w = (Ok tt, w')
          /\ rows_of (automated_payments_tbl (store w')) = rows_of (automated_payments_tbl db)
          /\ screen w' = scr ++ out
          /\ In (out_error [Str "An error occurred while saving the automated payment: ";
                            Str e]) out
          /\ In (out_success [Str "Automated payment added successfully!"]) out)
  /\ (forall ln la ldue,
        pandas_ok 0 fs ->
        exists out w',
          loans (mkLoanForm ln la 1 ldue true) w = (Ok tt, w')
          /\ rows_of (loans_tbl (store w')) = rows_of (loans_tbl db)
          /\ screen w' = scr ++ out
          /\ In (out_error [Str "An error occurred while saving the loan: "; Str e]) out
          /\ In (out_success [Str "Loan added successfully!"]) out)
  /\ (forall typed,
        exists out w',
          snd (savings_goals (mkSavingsForm typed true) w) = w'
          /\ rows_of (savings_goal_tbl (store w')) = rows_of (savings_goal_tbl db)
          /\ savings_goal (session_state w') = Some (st_number_input 0 g typed)
          /\ screen w' = scr ++ out
          /\ In (out_error [Str "An error occurred while saving the savings goal: "; Str e])
                out
          /\ In (out_success [Str "Savings goal updated successfully!"]) out)
  /\ (forall fd fc fa fdesc fty,
        show_transactions (mkTransactionForm fd fc fa fdesc fty true) w_pandas
        = (Raise (pandas_DatabaseError e),
           mkWorld db session
             (scr ++ [out_header "Transactions"; out_subheader "Add New Transaction"])
             d fs))
  /\ (forall pn pa pfreq pnext,
        exists w',
          automated_payments (mkPaymentForm pn pa pfreq pnext true) w_pandas
          = (Raise (pandas_DatabaseError e), w')
          /\ rows_of (automated_payments_tbl (store w')) = rows_of (automated_payments_tbl db)
          /\ screen w'
             = scr ++ [ out_header "Automated Payments";
                        out_subheader "Add New Automated Payment" ])
  /\ (forall ln la lty ldue,
        exists w',
          loans (mkLoanForm ln la lty ldue true) w_pandas
          = (Raise (pandas_DatabaseError e), w')
          /\ rows_of (loans_tbl (store w')) = rows_of (loans_tbl db)
          /\ rows_of (transactions_tbl (store w')) = rows_of (transactions_tbl db)
          /\ screen w'
             = scr ++ [out_header "Loans Management"; out_subheader "Add New Loan"]).
Proof.
  intros session w w_pandas. subst session w w_pandas. unfold pandas_ok.
  destruct db as [t1 t2 t3 t4 t5].
  split; [|split; [|split; [|split; [|split; [|split]]]]].
  - intros fd fc fa fdesc fty Hp. unfold show_transactions.
    destruct fs as [|[[e1|e1]|] fs]; cbn in Hp; try contradiction; cbn; shown_after_run.
  - intros pn pa pfreq pnext Hp. unfold automated_payments.
    destruct fs as [|[[e1|e1]|] fs], t4 as [[|p0 pay]|]; cbn in Hp; try contradiction;
      cbn; unfold empty; cbn; shown_after_run.
  - intros ln la ldue Hp. unfold loans.
    destruct fs as [|[[e1|e1]|] fs], t5 as [[|l0 l]|]; cbn in Hp; try contradiction;
      cbn; unfold empty; cbn; shown_after_run.
  - intros typed. unfold savings_goals.
    destruct tx as [|rows], fs as [|[[e1|e1]|] fs], t4 as [pay|]; cbn;
      rewrite ?expected_expenses_Table, ?expected_expenses_Blank; cbn; shown_after_run.
  - intros fd fc fa fdesc fty. unfold show_transactions. cbn.
    rewrite <- app_assoc. reflexivity.
  - intros pn pa pfreq pnext. unfold automated_payments. cbn.
    eexists. split; [reflexivity|]. cbn. rewrite ?rows_of_create, <- ?app_assoc.
    split; reflexivity.
  - intros ln la lty ldue. unfold loans. cbn.
    eexists. split; [reflexivity|]. cbn. rewrite ?rows_of_create, <- ?app_assoc.
    repeat split; reflexivity.
Qed.

Lemma failed_write_reports_success_witness :
  let w := mkWorld example_database example_session [] (mkDate 2024 2 4)
             [Some (at_connect "unable to open database file")] in
  let form := mkTransactionForm None 8 (Some 25%Q) "Stamps" 1 true in
  pandas_ok 0 []
  /\ fst (show_transactions form w) = Raise RerunException
  /\ rows_of (transactions_tbl (store (snd (show_transactions form w)))) = example_ledger
  /\ In (out_success [Str "Transaction added successfully!"])
        (screen (snd (show_transactions form w))).
Proof.
  intros w form.
  assert (Hp : pandas_ok 0 []) by exact I.
  split; [exact Hp|].
  destruct (failed_write_reports_success example_database "default_user"
              (Table example_ledger) 0%Q [] (mkDate 2024 2 4)
              "unable to open database file" []) as (Htx & _).
  destruct (Htx None 8%nat (Some 25%Q) "Stamps" 1%nat Hp)
    as (out & w' & Hrun & Hrows & Hscreen & _ & Hsuccess).
  subst w form. unfold example_session. rewrite Hrun. cbn [fst snd].
  split; [reflexivity|]. split; [exact Hrows|].
  rewrite Hscreen. exact Hsuccess.
Defined.

(** X13. The two writes of a Given loan are not tied together.  When the
    loan row is saved and [sqlite3.connect] raises at the write of its
    expense, the loans table has the new loan, the transactions table has no
    new row, and the page still says that the loan was recorded as an
    expense (pandas meeting no error at the two loads that follow).  When it
    is pandas that meets the error in the write of the expense, the loan is
    saved and the expense is not, too, and the page stops with the uncaught
    [pandas.errors.DatabaseError] right after it said that the loan was
    added. *)
Theorem given_loan_without_expense db u tx g scr d e fs name typed due :
  let session := mkSession (Some u) tx g in
  let w := mkWorld db session scr d (None :: Some (at_connect e) :: fs) in
  let w_pandas := mkWorld db session scr d (None :: Some (in_pandas e) :: fs) in
  let loan :=
    Loan.mk name (st_number_input (1 # 100) (1 # 100) typed) "Given"
      (st_date_input d due) u in
  (pandas_ok 0 fs -> pandas_ok 1 fs ->
   exists out w',
     loans (mkLoanForm name typed 0 due true) w = (Ok tt, w')
     /\ rows_of (loans_tbl (store w')) = rows_of (loans_tbl db) ++ [loan]
     /\ rows_of (transactions_tbl (store w')) = rows_of (transactions_tbl db)
     /\ screen w' = scr ++ out
     /\ In (out_error [Str "An error occurred while saving to the database: "; Str e]) out
     /\ In (out_success [Str "Loan recorded as an expense in transactions!"]) out)
  /\ (exists w',
        loans (mkLoanForm name typed 0 due true) w_pandas
        = (Raise (pandas_DatabaseError e), w')
        /\ rows_of (loans_tbl (store w')) = rows_of (loans_tbl db) ++ [loan]
        /\ rows_of (transactions_tbl (store w')) = rows_of (transactions_tbl db)
        /\ session_state w' = session
        /\ screen w'
           = scr ++ [ out_header "Loans Management"; out_subheader "Add New Loan";
                      out_success [Str "Loan added successfully!"] ]).
Proof.
  intros session w w_pandas loan. subst session w w_pandas loan. unfold pandas_ok.
  destruct db as [t1 t2 t3 t4 t5]. unfold loans. split.
  - intros H0 H1.
    destruct fs as [|[[e1|e1]|] [|[[e2|e2]|] fs]], t5 as [[|l0 l]|];
      cbn in H0, H1; try contradiction; cbn; unfold empty; cbn; shown_after_run.
  - cbn. eexists. split; [reflexivity|]. cbn.
    rewrite ?rows_of_append, ?rows_of_create, <- ?app_assoc.
    repeat split; reflexivity.
Qed.

Lemma given_loan_without_expense_witness :
  let w := mkWorld example_database example_session [] (mkDate 2024 2 4)
             [None; Some (at_connect "unable to open database file")] in
  let form := mkLoanForm "Car" (Some 100%Q) 0 None true in
  pandas_ok 0 [] /\ pandas_ok 1 []
  /\ rows_of (loans_tbl (store (snd (loans form w))))
     = [Loan.mk "Car" 100 "Given" (mkDate 2024 2 4) "default_user"]
  /\ rows_of (transactions_tbl (store (snd (loans form w)))) = example_ledger.
Proof.
  intros w form.
  assert (H0 : pandas_ok 0 []) by exact I.
  assert (H1 : pandas_ok 1 []) by exact I.
  split; [exact H0|]. split; [exact H1|].
  destruct (given_loan_without_expense example_database "default_user"
              (Some (Table example_ledger)) (Some 0%Q) [] (mkDate 2024 2 4)
              "unable to open database file" [] "Car" (Some 100%Q) None) as (Hcaught & _).
  destruct (Hcaught H0 H1) as (out & w' & Hrun & Hloans & Htx & _).
  subst w form. unfold example_session. rewrite Hrun. cbn [snd].
  split; [exact Hloans | exact Htx].
Defined.

(** ** Adding an automated payment *)

(** X14. Adding an automated payment, the database raising no error: the
    table gets exactly one more row, with the values of the form and an
    amount of at least 0.01; the page lists the table with the new row last;
    the transactions are not touched; and from then on the savings page
    takes off the savings the sum of the amounts of the whole table, the new
    payment included, whatever its frequency. *)
Theorem payment_added db u tx g scr d faults pn pa pfreq pnext :
  connects 0 faults -> connects 1 faults ->
  let w := mkWorld db (mkSession (Some u) tx g) scr d faults in
  let prior := rows_of (automated_payments_tbl db) in
  let payment :=
    AutomatedPayment.mk pn (st_number_input (1 # 100) (1 # 100) pa)
      (st_selectbox ["Weekly"; "Monthly"; "Yearly"] pfreq) (st_date_input d pnext) u in
  exists before w',
    automated_payments (mkPaymentForm pn pa pfreq pnext true) w = (Ok tt, w')
    /\ rows_of (automated_payments_tbl (store w')) = prior ++ [payment]
    /\ transactions_tbl (store w') = transactions_tbl db
    /\ screen w'
       = scr ++ before ++ [out_dataframe (frame_payments (Table (prior ++ [payment])))]
    /\ (1 # 100 <= AutomatedPayment.Amount payment)%Q
    /\ (forall rows goal scr' d',
          let adjusted :=
            (total_income rows - total_expenses rows
             - Qsum (map AutomatedPayment.Amount (prior ++ [payment])))%Q in
          exists before' w'',
            savings_goals (mkSavingsForm None false)
              (mkWorld (store w') (mkSession (Some u) (Some (Table rows)) (Some goal))
                 scr' d' [])
            = (Ok tt, w'')
            /\ screen w''
               = scr' ++ before'
                 ++ [ out_progress (progress adjusted goal);
                      out_write [Str "Current savings: "; Money adjusted];
                      out_write [Str "Progress towards goal: ";
                                 Percent (progress adjusted goal * 100)%Q] ]).
Proof.
  intros H0 H1 w prior payment. unfold connects in H0, H1.
  assert (Hrun : exists before w',
            automated_payments (mkPaymentForm pn pa pfreq pnext true) w = (Ok tt, w')
            /\ rows_of (automated_payments_tbl (store w')) = prior ++ [payment]
            /\ transactions_tbl (store w') = transactions_tbl db
            /\ screen w'
               = scr ++ before
                 ++ [out_dataframe (frame_payments (Table (prior ++ [payment])))]).
  { subst w prior payment. destruct db as [t1 t2 t3 t4 t5]. unfold automated_payments.
    destruct faults as [|[e|] [|[e'|] fs]], t4 as [pay|]; try discriminate; cbn;
      rewrite ?empty_Table by (destruct pay; discriminate); cbn;
      (eexists [_; _; _; _], _; split; [reflexivity|]); cbn;
      rewrite <- ?app_assoc; repeat split; reflexivity. }
  destruct Hrun as (before & w' & Hrun & Hrows & Htx & Hscreen).
  exists before, w'. repeat (split; [assumption|]).
  split; [apply st_number_input_min|].
  intros rows goal scr' d' adjusted.
  destruct (savings_goals_run rows (store w') u goal scr' d' [] (mkSavingsForm None false) I)
    as (before' & w'' & Hs & Hscr).
  exists before', w''. split; [exact Hs|].
  unfold payments_seen in Hscr. cbn [sf_update nth] in Hscr. rewrite Hrows in Hscr.
  exact Hscr.
Qed.

Lemma payment_added_witness :
  let w := mkWorld example_database example_session [] (mkDate 2024 2 4) [] in
  let form := mkPaymentForm "Rent" (Some 900%Q) 1 None true in
  connects 0 [] /\ connects 1 []
  /\ rows_of (automated_payments_tbl (store (snd (automated_payments form w))))
     = [AutomatedPayment.mk "Rent" 900 "Monthly" (mkDate 2024 2 4) "default_user"].
Proof.
  intros w form.
  assert (H0 : connects 0 []) by reflexivity.
  assert (H1 : connects 1 []) by reflexivity.
  split; [exact H0|]. split; [exact H1|].
  destruct (payment_added example_database "default_user" (Some (Table example_ledger))
              (Some 0%Q) [] (mkDate 2024 2 4) [] "Rent" (Some 900%Q) 1%nat None H0 H1)
    as (before & w' & Hrun & Hrows & _).
  subst w form. unfold example_session. rewrite Hrun. exact Hrows.
Defined.

(** ** The progress figure *)

Lemma py_min_mono (x y b : Q) : (x <= y)%Q -> (py_min x b <= py_min y b)%Q.
Proof.
  intros Hxy. unfold py_min.
  destruct (Qlt_bool b x) eqn:Ex, (Qlt_bool b y) eqn:Ey.
  - apply Qle_refl.
  - apply Qlt_bool_true in Ex. apply Qlt_bool_false in Ey.
    exfalso. apply (Qlt_not_le _ _ Ex). eapply Qle_trans; eassumption.
  - apply Qlt_bool_false in Ex. exact Ex.
  - exact Hxy.
Qed.

Lemma py_max_mono (a x y : Q) : (x <= y)%Q -> (py_max a x <= py_max a y)%Q.
Proof.
  intros Hxy. unfold py_max.
  destruct (Qlt_bool a x) eqn:Ex, (Qlt_bool a y) eqn:Ey.
  - exact Hxy.
  - apply Qlt_bool_true in Ex. apply Qlt_bool_false in Ey.
    exfalso. apply (Qlt_not_le _ _ Ex). eapply Qle_trans; eassumption.
  - apply Qlt_bool_true in Ey. apply Qlt_le_weak, Ey.
  - apply Qle_refl.
Qed.

(** X15. The progress figure that lines 179-180 compute, the number whose
    percentage line 184 writes, never goes down when the adjusted savings go
    up, the goal being the same.  (This is about the number; how
    [st.progress] draws it is not modelled: Python's int 1, which [min]
    returns above the goal, and the float 1.0 are the same number here.) *)
Theorem progress_monotone (goal adjusted adjusted' : Q) :
  (adjusted <= adjusted')%Q ->
  (progress adjusted goal <= progress adjusted' goal)%Q.
Proof.
  intros Ha. unfold progress.
  apply py_max_mono, py_min_mono.
  destruct (Qlt_bool 0 goal) eqn:Eg; [|apply Qle_refl].
  apply Qlt_bool_true in Eg. unfold Qdiv.
  apply Qmult_le_compat_r; [exact Ha|].
  apply Qlt_le_weak, Qinv_lt_0_compat, Eg.
Qed.

Lemma progress_monotone_witness :
  (250 <= 400)%Q /\ (progress 250 1000 <= progress 400 1000)%Q
  /\ (progress 250 1000 == 1 # 4)%Q.
Proof.
  assert (H : (250 <= 400)%Q) by discriminate.
  split; [exact H|]. split; [exact (progress_monotone 1000 250 400 H)|reflexivity].
Defined.

(** ** The dashboard on any ledger *)

(** X16. The dashboard never raises and never writes, whatever frame the
    session holds: on an empty ledger, and on the column-less frame of a
    failed load, it shows its header and the warning and stops; on a ledger
    with rows it goes on to the metrics and the monthly chart, and ends with
    the pie of the expenses when there is an expense and with the notice
    that there is none otherwise. *)
Theorem dashboard_on_any_ledger db u g scr d faults (tx : DataFrame Transaction.t) :
  let w := mkWorld db (mkSession (Some u) (Some tx) g) scr d faults in
  exists out,
    show_dashboard w = (Ok tt, mkWorld db (mkSession (Some u) (Some tx) g) (scr ++ out) d faults)
    /\ (empty tx = true ->
        out = [ out_header "Financial Dashboard";
                out_warning [Str "No transactions available. Please add transactions or upload a CSV file."] ])
    /\ (forall rows,
          tx = Table rows -> rows <> [] ->
          exists middle,
            out = out_header "Financial Dashboard" :: middle
                  ++ [ if existsb (fun t => String.eqb (Transaction.Type_ t) "Expense") rows
                       then out_plotly_chart
                              (px_pie (filter (fun t => String.eqb (Transaction.Type_ t)
                                                          "Expense") rows)
                                      "Expense Breakdown")
                       else out_info [Str "No expenses to display."] ]).
Proof.
  intros w. subst w.
  destruct tx as [|[|t rest]].
  - eexists [_; _]. split; [|split; [reflexivity|intros rows Hrows; discriminate]].
    unfold show_dashboard. cbn. unfold empty. cbn. rewrite <- app_assoc. reflexivity.
  - eexists [_; _]. split; [|split; [reflexivity|]].
    + unfold show_dashboard. cbn. unfold empty. cbn. rewrite <- app_assoc. reflexivity.
    + intros rows Hrows Hne. inversion Hrows; subst. congruence.
  - eexists. split; [apply show_dashboard_run; discriminate|].
    split; [discriminate|].
    intros rows Hrows _. inversion Hrows; subst. clear Hrows.
    eexists [_; _; _; _; _; _]. cbn [app]. do 7 f_equal.
    unfold expense_breakdown.
    set (rows := t :: rest).
    assert (E : empty (Table (filter (fun t => String.eqb (Transaction.Type_ t) "Expense")
                                rows))
                = negb (existsb (fun t => String.eqb (Transaction.Type_ t) "Expense") rows)).
    { clearbody rows. clear. induction rows as [|r rows IH]; [reflexivity|].
      simpl. destruct (String.eqb (Transaction.Type_ r) "Expense"); [reflexivity|exact IH]. }
    cbv zeta. rewrite E, negb_involutive. reflexivity.
Qed.

Lemma dashboard_on_any_ledger_witness :
  let w := mkWorld example_database example_session [] (mkDate 2024 2 4) [] in
  Table example_ledger = Table example_ledger
  /\ example_ledger <> []
  /\ exists middle,
       screen (snd (show_dashboard w))
       = out_header "Financial Dashboard" :: middle
         ++ [out_plotly_chart
               (px_pie (filter (fun t => String.eqb (Transaction.Type_ t) "Expense")
                          example_ledger) "Expense Breakdown")].
Proof.
  intros w.
  assert (H : example_ledger <> []) by discriminate.
  split; [reflexivity|]. split; [exact H|].
  destruct (dashboard_on_any_ledger example_database "default_user" (Some 0%Q) []
              (mkDate 2024 2 4) [] (Table example_ledger)) as (out & Hrun & _ & Hrows).
  destruct (Hrows example_ledger eq_refl H) as (middle & Hout).
  exists middle. subst w. unfold example_session. rewrite Hrun. cbn [snd screen app].
  rewrite Hout. reflexivity.
Defined.

(** ** A new session *)

(** X17. The first run of a new session, the database raising no error on
    its two loads and no button being pressed: the session gets the user
    default_user, the whole transactions table as its ledger and, as its
    goal, the goal saved for default_user, or 0 when none was saved. *)
Theorem new_session_initialised repr_float (p : page) db scr d faults :
  idle p = true -> connects 0 faults -> connects 1 faults ->
  let w := mkWorld db (mkSession None None None) scr d faults in
  session_state (snd (main repr_float p w))
  = mkSession (Some "default_user")
      (Some (Table (rows_of (transactions_tbl db))))
      (Some (get "default_user" 0%Q (rows_of (savings_goal_tbl db)))).
Proof.
  intros Hidle H0 H1 w. subst w. unfold connects in H0, H1.
  destruct db as [t1 t2 t3 t4 t5]. unfold main.
  destruct faults as [|[e|] [|[e'|] fs]]; try discriminate; cbn;
    rewrite !rows_of_create;
    match goal with
    | |- session_state (snd (_ ?W)) = _ =>
        rewrite (idle_page_same_session repr_float p Hidle W)
    end; reflexivity.
Qed.

Lemma new_session_initialised_witness :
  let w := mkWorld example_database (mkSession None None None) [] (mkDate 2024 2 4) [] in
  idle Dashboard = true /\ connects 0 [] /\ connects 1 []
  /\ session_state (snd (main example_repr_float Dashboard w)) = example_session.
Proof.
  intros w.
  assert (Hidle : idle Dashboard = true) by reflexivity.
  assert (H0 : connects 0 []) by reflexivity.
  assert (H1 : connects 1 []) by reflexivity.
  split; [exact Hidle|]. split; [exact H0|]. split; [exact H1|].
  subst w.
  rewrite (new_session_initialised example_repr_float Dashboard example_database []
             (mkDate 2024 2 4) [] Hidle H0 H1).
  reflexivity.
Defined.

(** ** Adding a loan *)

(** X18. Adding a loan, nothing going wrong on the first connection:
    whatever the type of the loan, the loans table gets exactly one more
    row, with the values of the form, the user of the session and an amount
    of at least 0.01, and the other tables but the transactions are not
    touched, whatever goes wrong afterwards; when nothing goes wrong on the
    last connection of the run either (the second for a loan taken, the
    fourth for a loan given) and, for a loan given, pandas meets no error on
    the two connections in between, the page ends normally, with the list of
    the loans, the new one last. *)
Theorem loan_added db u tx g scr d faults name typed picked due :
  connects 0 faults ->
  let w := mkWorld db (mkSession (Some u) tx g) scr d faults in
  let prior := rows_of (loans_tbl db) in
  let loan_type := st_selectbox ["Given"; "Taken"] picked in
  let loan :=
    Loan.mk name (st_number_input (1 # 100) (1 # 100) typed) loan_type
      (st_date_input d due) u in
  exists r w',
    loans (mkLoanForm name typed picked due true) w = (r, w')
    /\ rows_of (loans_tbl (store w')) = prior ++ [loan]
    /\ (1 # 100 <= Loan.Amount loan)%Q
    /\ budget_tbl (store w') = budget_tbl db
    /\ savings_goal_tbl (store w') = savings_goal_tbl db
    /\ automated_payments_tbl (store w') = automated_payments_tbl db
    /\ (connects (if String.eqb loan_type "Given" then 3 else 1) faults ->
        (String.eqb loan_type "Given" = true -> pandas_ok 1 faults /\ pandas_ok 2 faults) ->
        r = Ok tt
        /\ exists before,
             screen w'
             = scr ++ before ++ [out_dataframe (frame_loans (Table (prior ++ [loan])))]).
Proof.
  intros H0 w prior loan_type loan. unfold connects in H0.
  assert (Hmin : (1 # 100 <= Loan.Amount loan)%Q) by apply st_number_input_min.
  revert Hmin. subst w prior loan loan_type. intros Hmin.
  destruct db as [t1 t2 t3 t4 t5]. unfold loans, connects, pandas_ok.
  destruct picked as [|[|[|n]]];
    destruct faults as [|[e0|] [|f1 [|f2 [|f3 fs]]]]; try discriminate;
    try destruct f1 as [[e1|e1]|]; try destruct f2 as [[e2|e2]|];
    try destruct f3 as [[e3|e3]|];
    destruct t5 as [ls|]; cbn;
    rewrite ?empty_Table by (destruct ls; discriminate); cbn;
    (eexists _, _; split; [reflexivity|]); cbn;
    (split; [reflexivity|]); (split; [exact Hmin|]);
    (split; [reflexivity|]); (split; [reflexivity|]); (split; [reflexivity|]);
    intros H Hp; try discriminate H;
    try (destruct (Hp eq_refl) as [Hp1 Hp2]; cbn in Hp1, Hp2; contradiction);
    (split; [reflexivity|]);
    rewrite <- ?app_assoc;
    first [ eexists [_; _; _]; reflexivity
          | eexists [_; _; _; _]; reflexivity
          | eexists [_; _; _; _; _]; reflexivity
          | eexists [_; _; _; _; _; _]; reflexivity
          | eexists [_; _; _; _; _; _; _]; reflexivity
          | eexists [_; _; _; _; _; _; _; _]; reflexivity ].
Qed.

Lemma loan_added_witness :
  let w := mkWorld example_database example_session [] (mkDate 2024 2 4) [] in
  connects 0 [] /\ connects 1 []
  /\ fst (loans (mkLoanForm "Car" (Some 100%Q) 1 None true) w) = Ok tt
  /\ rows_of (loans_tbl (store (snd (loans (mkLoanForm "Car" (Some 100%Q) 1 None true) w))))
     = rows_of (loans_tbl example_database)
       ++ [Loan.mk "Car" 100 "Taken" (mkDate 2024 2 4) "default_user"].
Proof.
  intros w.
  assert (H0 : connects 0 []) by reflexivity.
  assert (H1 : connects 1 []) by reflexivity.
  split; [exact H0|]. split; [exact H1|].
  destruct (loan_added example_database "default_user" (Some (Table example_ledger))
              (Some 0%Q) [] (mkDate 2024 2 4) [] "Car" (Some 100%Q) 1%nat None H0)
    as (r & w' & Hrun & Hrows & _ & _ & _ & _ & Hlast).
  subst w. unfold example_session. rewrite Hrun. cbn [fst snd].
  split; [|exact Hrows].
  apply Hlast; [exact H1 | intros E; discriminate E].
Defined.
